(** * Cursors_FIX: the cursor watchdog and its repair action

    A shallow embedding of [Cursors_FIX.py].  The script polls the handle of
    the cursor that Windows currently shows and, when the handle changes
    outside of a cooldown window, replaces every system cursor by a copy of
    the static arrow and reloads the cursor scheme.

    Python values are modelled as follows: an [int] is a [Z], a value that is
    either [None] or an [int] is an [option Z], a [float] is a binary64
    [PrimFloat.float].  The calls into [user32], the clock and the console
    are effects: every call is appended to a log, and the value a call
    returns is read from an oracle [OS] that fixes, for each API, the answer
    to its n-th call.  Any sequence of answers the single-threaded script
    can observe is such an oracle.

    Left out: the text of the printed lines (a [message] records which line
    is printed and the handles or error code it shows, not the wall-clock
    time of lines 110 and 114), and exceptions raised inside [ctypes].
    [while True] never ends; [iterate n] is its first [n] iterations. *)

From Stdlib Require Import ZArith List Bool Lia.
From Stdlib Require Import Floats.
Import ListNotations.

Set Warnings "-inexact-float".
Local Open Scope Z_scope.

(** ** Module constants (lines 5-24) *)

Definition SPI_SETCURSORS : Z := 0x0057.
Definition CURSOR_SHOWING : Z := 0x00000001.
Definition IDC_ARROW : Z := 32512.

Definition ALL_OCR_IDS : list Z :=
  [ 32512  (* OCR_NORMAL *)
  ; 32513  (* OCR_IBEAM *)
  ; 32514  (* OCR_WAIT *)
  ; 32515  (* OCR_CROSS *)
  ; 32516  (* OCR_UP *)
  ; 32642  (* OCR_SIZENWSE *)
  ; 32643  (* OCR_SIZENESW *)
  ; 32644  (* OCR_SIZEWE *)
  ; 32645  (* OCR_SIZENS *)
  ; 32646  (* OCR_SIZEALL *)
  ; 32648  (* OCR_NO *)
  ; 32649  (* OCR_HAND *)
  ; 32650  (* OCR_APPSTARTING *)
  ].

(** The structure filled by [GetCursorInfo] (lines 28-34). *)
Record CURSORINFO : Set := mkCURSORINFO
  { cbSize : Z
  ; flags : Z
  ; hCursor : Z
  ; ptScreenPos : Z * Z }.

(** ** Python and ctypes conventions *)

(** Truth value of an [int]: only [0] is falsy. *)
Definition truthy_int (z : Z) : bool := negb (z =? 0).

(** Truth value of a value that is [None] or an [int]. *)
Definition truthy (v : option Z) : bool :=
  match v with
  | None => false
  | Some z => truthy_int z
  end.

(** [x or d] for [x] being [None] or an [int]. *)
Definition py_or (x : option Z) (d : Z) : Z :=
  if truthy x then match x with Some z => z | None => d end else d.

(** [==] between two values that are [None] or an [int]. *)
Definition py_eq (a b : option Z) : bool :=
  match a, b with
  | None, None => true
  | Some x, Some y => x =? y
  | _, _ => false
  end.

(** A pointer-sized result ([wintypes.HANDLE], [c_void_p]) reads as [None]
    when the pointer is null and as its integer value otherwise. *)
Definition c_void_p_value (raw : Z) : option Z :=
  if raw =? 0 then None else Some raw.

(** ** Effects: the log of calls and the answers of the system *)

Inductive message : Set :=
| MsgStarted
| MsgInitial (h : option Z)
| MsgSwitchReload (last h : option Z)
| MsgSwitchCooldown (last h : option Z)
| MsgLoadCursorFailed (err : Z)
| MsgSystemParametersInfoFailed (err : Z).

Inductive event : Set :=
| EvSleep (sec : float)
| EvMonotonic
| EvGetCursorInfo
| EvLoadCursorW (hInstance lpCursorName : Z)
| EvCopyIcon (hIcon : option Z)
| EvSetSystemCursor (hcur : option Z) (id : Z)
| EvSystemParametersInfoW (uiAction uiParam : Z) (pvParam : option Z) (fWinIni : Z)
| EvGetLastError
| EvPrint (m : message).

Inductive api : Set :=
| ApiSleep | ApiMonotonic | ApiGetCursorInfo | ApiLoadCursorW | ApiCopyIcon
| ApiSetSystemCursor | ApiSystemParametersInfoW | ApiGetLastError | ApiPrint.

Definition api_of (e : event) : api :=
  match e with
  | EvSleep _ => ApiSleep
  | EvMonotonic => ApiMonotonic
  | EvGetCursorInfo => ApiGetCursorInfo
  | EvLoadCursorW _ _ => ApiLoadCursorW
  | EvCopyIcon _ => ApiCopyIcon
  | EvSetSystemCursor _ _ => ApiSetSystemCursor
  | EvSystemParametersInfoW _ _ _ _ => ApiSystemParametersInfoW
  | EvGetLastError => ApiGetLastError
  | EvPrint _ => ApiPrint
  end.

Definition api_eqb (a b : api) : bool :=
  match a, b with
  | ApiSleep, ApiSleep | ApiMonotonic, ApiMonotonic
  | ApiGetCursorInfo, ApiGetCursorInfo | ApiLoadCursorW, ApiLoadCursorW
  | ApiCopyIcon, ApiCopyIcon | ApiSetSystemCursor, ApiSetSystemCursor
  | ApiSystemParametersInfoW, ApiSystemParametersInfoW
  | ApiGetLastError, ApiGetLastError | ApiPrint, ApiPrint => true
  | _, _ => false
  end.

(** Number of calls of one API recorded in a log. *)
Definition calls (a : api) (log : list event) : nat :=
  length (filter (fun e => api_eqb (api_of e) a) log).

(** The answers of the system: for each API, the raw value returned by its
    n-th call (counting from 0). *)
Record OS : Type := mkOS
  { os_monotonic : nat -> float
  ; os_GetCursorInfo : nat -> Z * CURSORINFO
  ; os_LoadCursorW : nat -> Z
  ; os_CopyIcon : nat -> Z
  ; os_SetSystemCursor : nat -> Z
  ; os_SystemParametersInfoW : nat -> Z
  ; os_last_error : nat -> Z }.

(** A computation reads the log so far and returns a value and the
    extended log. *)
Definition M (A : Type) : Type := list event -> A * list event.

Definition ret {A : Type} (a : A) : M A := fun log => (a, log).

Definition bind {A B : Type} (m : M A) (k : A -> M B) : M B :=
  fun log => let (a, log') := m log in k a log'.

Notation "x <- m ;; k" := (bind m (fun x => k))
  (at level 61, m at next level, right associativity).
Notation "m ;;; k" := (bind m (fun _ => k))
  (at level 61, right associativity).

(** [for x in xs: body x] *)
Fixpoint for_each {A : Type} (xs : list A) (body : A -> M unit) : M unit :=
  match xs with
  | [] => ret tt
  | x :: xs' => body x ;;; for_each xs' body
  end.

Section Program.

Variable os : OS.

Definition call {A : Type} (a : api) (e : event) (answer : nat -> A) : M A :=
  fun log => (answer (calls a log), log ++ [e]).

Definition sleep (sec : float) : M unit :=
  call ApiSleep (EvSleep sec) (fun _ => tt).

Definition monotonic : M float :=
  call ApiMonotonic EvMonotonic (os_monotonic os).

Definition print (m : message) : M unit :=
  call ApiPrint (EvPrint m) (fun _ => tt).

Definition get_last_error : M Z :=
  call ApiGetLastError EvGetLastError (os_last_error os).

(** [user32.GetCursorInfo(byref(ci))]: the [c_int] result and the structure
    as the system filled it. *)
Definition GetCursorInfo : M (Z * CURSORINFO) :=
  call ApiGetCursorInfo EvGetCursorInfo (os_GetCursorInfo os).

(** [restype = wintypes.HANDLE] (line 39). *)
Definition LoadCursorW (hInstance lpCursorName : Z) : M (option Z) :=
  call ApiLoadCursorW (EvLoadCursorW hInstance lpCursorName)
       (fun n => c_void_p_value (os_LoadCursorW os n)).

(** [restype = wintypes.HANDLE] (line 40). *)
Definition CopyIcon (hIcon : option Z) : M (option Z) :=
  call ApiCopyIcon (EvCopyIcon hIcon)
       (fun n => c_void_p_value (os_CopyIcon os n)).

(** [restype = wintypes.BOOL] (line 42). *)
Definition SetSystemCursor (hcur : option Z) (id : Z) : M Z :=
  call ApiSetSystemCursor (EvSetSystemCursor hcur id) (os_SetSystemCursor os).

Definition SystemParametersInfoW
    (uiAction uiParam : Z) (pvParam : option Z) (fWinIni : Z) : M Z :=
  call ApiSystemParametersInfoW
       (EvSystemParametersInfoW uiAction uiParam pvParam fWinIni)
       (os_SystemParametersInfoW os).

(** ** [get_cursor_handle] (lines 44-55) *)

Definition get_cursor_handle : M (option Z) :=
  r <- GetCursorInfo ;;
  let ci := snd r in
  if negb (truthy_int (fst r)) then ret None
  else if negb (truthy_int (Z.land (flags ci) CURSOR_SHOWING)) then ret None
  else ret (Some (py_or (c_void_p_value (hCursor ci)) 0)).

(** ** [force_reload_cursors] (lines 57-83) *)

Definition install_copy (arrow : option Z) (ocr_id : Z) : M unit :=
  copy <- CopyIcon arrow ;;
  if truthy copy then SetSystemCursor copy ocr_id ;;; ret tt
  else ret tt.

Definition force_reload_cursors : M bool :=
  arrow <- LoadCursorW 0 IDC_ARROW ;;
  if negb (truthy arrow) then
    err <- get_last_error ;;
    print (MsgLoadCursorFailed err) ;;;
    ret false
  else
    for_each ALL_OCR_IDS (install_copy arrow) ;;;
    result <- SystemParametersInfoW SPI_SETCURSORS 0 None 0 ;;
    if negb (truthy_int result) then
      err <- get_last_error ;;
      print (MsgSystemParametersInfoFailed err) ;;;
      ret false
    else
      ret true.

(** ** [main] (lines 85-117) *)

Definition poll_interval_sec : float := 0.02%float.
Definition cooldown_sec : float := 0.10%float.

(** The two local variables that live across iterations. *)
Record LoopState : Set := mkLoopState
  { last_h : option Z
  ; cooldown_until : float }.

(** [a >= b] on floats. *)
Definition float_ge (a b : float) : bool := PrimFloat.leb b a.

(** Lines 98-117: the iteration once [now] and [h] are known. *)
Definition loop_body (now : float) (h : option Z) (st : LoopState)
  : M LoopState :=
  if negb (truthy h) then ret st
  else
    match last_h st with
    | None =>
        print (MsgInitial h) ;;;
        ret (mkLoopState h (cooldown_until st))
    | Some _ =>
        st' <- (if negb (py_eq h (last_h st)) then
                  if float_ge now (cooldown_until st) then
                    print (MsgSwitchReload (last_h st) h) ;;;
                    force_reload_cursors ;;;
                    ret (mkLoopState (last_h st)
                                     (PrimFloat.add now cooldown_sec))
                  else
                    print (MsgSwitchCooldown (last_h st) h) ;;;
                    ret st
                else ret st) ;;
        ret (mkLoopState h (cooldown_until st'))
    end.

(** Lines 94-96 followed by the rest of the iteration. *)
Definition iteration (st : LoopState) : M LoopState :=
  sleep poll_interval_sec ;;;
  now <- monotonic ;;
  h <- get_cursor_handle ;;
  loop_body now h st.

(** The first [n] iterations of [while True]. *)
Fixpoint iterate (n : nat) (st : LoopState) : M LoopState :=
  match n with
  | O => ret st
  | S n' => st' <- iteration st ;; iterate n' st'
  end.

Definition initial_state : LoopState := mkLoopState None 0%float.

(** [main], observed for its first [n] iterations: the loop never ends. *)
Definition main (n : nat) : M LoopState :=
  print MsgStarted ;;;
  iterate n initial_state.

End Program.

Arguments for_each {A} xs body _ : simpl nomatch.

(** ** What a run shows

    The definitions below only read the program and its log; the theorems
    are stated with them. *)

(** Number of repairs started so far: [force_reload_cursors] is the only
    caller of [LoadCursorW] and calls it exactly once, first thing. *)
Definition repairs (log : list event) : nat := calls ApiLoadCursorW log.

(** Whether an iteration reaches line 111. *)
Definition reaches_reload (now : float) (h : option Z) (st : LoopState)
  : bool :=
  truthy h &&
  match last_h st with
  | None => false
  | Some _ => negb (py_eq h (last_h st)) && float_ge now (cooldown_until st)
  end.

Section Observations.

Variable os : OS.

(** What the next call of the clock and of the sampler return. *)
Definition next_now (log : list event) : float := fst (monotonic os log).
Definition next_sample (log : list event) : option Z :=
  fst (get_cursor_handle os log).

(** What the next call of [LoadCursorW] and of [SystemParametersInfoW]
    return. *)
Definition arrow_of (log : list event) : option Z :=
  c_void_p_value (os_LoadCursorW os (calls ApiLoadCursorW log)).
Definition reload_result (log : list event) : Z :=
  os_SystemParametersInfoW os (calls ApiSystemParametersInfoW log).

(** The events of one pass of the [for] loop of line 70, when [n] copies
    were requested before it, and of the whole loop. *)
Definition install_events (arrow : option Z) (n : nat) (ocr_id : Z)
  : list event :=
  let copy := c_void_p_value (os_CopyIcon os n) in
  EvCopyIcon arrow ::
  (if truthy copy then [EvSetSystemCursor copy ocr_id] else []).

Fixpoint jolt_events (arrow : option Z) (n : nat) (ids : list Z)
  : list event :=
  match ids with
  | [] => []
  | ocr_id :: ids' =>
      install_events arrow n ocr_id ++ jolt_events arrow (S n) ids'
  end.

(** A run of the loop from state [st0] and log [log0]. *)
Variable st0 : LoopState.
Variable log0 : list event.

(** State and log when iteration [k] starts (iterations count from 0). *)
Definition state_at (k : nat) : LoopState := fst (iterate os k st0 log0).
Definition log_at (k : nat) : list event := snd (iterate os k st0 log0).

(** The time read and the handle sampled by iteration [k]. *)
Definition tick_now (k : nat) : float := next_now (log_at k).
Definition tick_sample (k : nat) : option Z := next_sample (log_at k).

(** Number of repairs started by iteration [k]. *)
Definition tick_repairs (k : nat) : nat :=
  (repairs (log_at (S k)) - repairs (log_at k))%nat.

End Observations.

(** ** Concrete systems, used to run the program *)

Definition showing (h : Z) : Z * CURSORINFO :=
  (1, mkCURSORINFO 24 CURSOR_SHOWING h (0, 0)).
Definition hidden (h : Z) : Z * CURSORINFO :=
  (1, mkCURSORINFO 24 0 h (0, 0)).
Definition query_failed : Z * CURSORINFO :=
  (0, mkCURSORINFO 24 0 0 (0, 0)).

(** The clock advances by the polling interval, with two longer gaps. *)
Definition demo_clock (k : nat) : float :=
  nth k [0.02; 0.04; 0.06; 0.08; 0.10; 0.12; 0.14; 0.16; 0.20; 0.22; 0.24;
         0.40; 0.42]%float 1%float.

(** Handle 10, then 99 and back, a hidden cursor, a null handle. *)
Definition demo_cursor (k : nat) : Z * CURSORINFO :=
  nth k [hidden 10; showing 10; showing 10; showing 99; showing 10;
         query_failed; hidden 10; showing 10; showing 99; showing 0;
         showing 10; showing 0; showing 99] (hidden 0).

(** The fourth copy cannot be made and the second install is refused. *)
Definition demo_os : OS :=
  mkOS demo_clock demo_cursor
       (fun _ => 65541)
       (fun n => if Nat.eqb n 3 then 0 else 7000 + Z.of_nat n)
       (fun n => if Nat.eqb n 1 then 0 else 1)
       (fun _ => 1)
       (fun _ => 0).

(** Same clock and cursor, but the arrow cannot be loaded. *)
Definition broken_os : OS :=
  mkOS demo_clock demo_cursor
       (fun _ => 0) (fun _ => 0) (fun _ => 0) (fun _ => 0) (fun _ => 1400).

(** Same as [demo_os], but the scheme cannot be reloaded. *)
Definition no_reload_os : OS :=
  mkOS demo_clock demo_cursor
       (fun _ => 65541) (fun n => 7000 + Z.of_nat n) (fun _ => 1)
       (fun _ => 0) (fun _ => 5).

(** The very first sample is a shown cursor with a null handle. *)
Definition null_first_os : OS :=
  mkOS demo_clock (fun k => nth k [showing 0; showing 10] (hidden 0))
       (fun _ => 65541) (fun n => 7000 + Z.of_nat n) (fun _ => 1)
       (fun _ => 1) (fun _ => 0).

(** Handle 10, then a change to 99 at 0.08 and a change back at 0.18. *)
Definition rounding_os : OS :=
  mkOS (fun k => nth k [0.02; 0.08; 0.18]%float 1%float)
       (fun k => nth k [showing 10; showing 99; showing 10] (hidden 0))
       (fun _ => 65541) (fun n => 7000 + Z.of_nat n) (fun _ => 1)
       (fun _ => 1) (fun _ => 0).

(** A finite binary64 number is exactly [m * 2 ^ e]; this gives [(m, e)]. *)
Definition float_exact (f : float) : Z * Z :=
  match Prim2SF f with
  | S754_finite s m e => (if s then Z.neg m else Z.pos m, e)
  | _ => (0, 0)
  end.

(** The log when the loop of [main] is entered. *)
Definition started : list event := [EvPrint MsgStarted].

(** ** Further observations on logs and runs *)

(** The events a computation appends to the log it starts from. *)
Definition emitted {A : Type} (m : M A) (log : list event) : list event :=
  skipn (length log) (snd (m log)).

(** The installs recorded in a log, in order: the handle passed to
    [SetSystemCursor] and the role it was installed for. *)
Fixpoint installed (evs : list event) : list (option Z * Z) :=
  match evs with
  | [] => []
  | EvSetSystemCursor hcur id :: evs' => (hcur, id) :: installed evs'
  | _ :: evs' => installed evs'
  end.

(** Number of printed lines of a given kind. *)
Definition printed (p : message -> bool) (log : list event) : nat :=
  length (filter (fun e => match e with EvPrint m => p m | _ => false end)
                 log).

Definition is_initial (m : message) : bool :=
  match m with MsgInitial _ => true | _ => false end.
Definition is_reload (m : message) : bool :=
  match m with MsgSwitchReload _ _ => true | _ => false end.
Definition is_cooldown (m : message) : bool :=
  match m with MsgSwitchCooldown _ _ => true | _ => false end.

(** The lines printed by the loop itself (lines 104, 110 and 114). *)
Definition is_loop_line (m : message) : bool :=
  is_initial m || is_reload m || is_cooldown m.

(** The most recent valid sample among the first [n], or [dflt]. *)
Fixpoint latest_sample (sample : nat -> option Z) (n : nat)
    (dflt : option Z) : option Z :=
  match n with
  | O => dflt
  | S k => if truthy (sample k) then sample k
           else latest_sample sample k dflt
  end.

(** The deadline set by the most recent repair among the first [n]
    iterations, or [dflt]. *)
Fixpoint latest_deadline (fires : nat -> nat) (now : nat -> float) (n : nat)
    (dflt : float) : float :=
  match n with
  | O => dflt
  | S k => if Nat.eqb (fires k) 1 then PrimFloat.add (now k) cooldown_sec
           else latest_deadline fires now k dflt
  end.

(** * Lemmas *)

(** ** The log only grows, and calls are counted per API *)

Lemma calls_app (a : api) (l1 l2 : list event) :
  calls a (l1 ++ l2) = (calls a l1 + calls a l2)%nat.
Proof. unfold calls. now rewrite filter_app, length_app. Qed.

Lemma calls_nil (a : api) : calls a [] = 0%nat.
Proof. reflexivity. Qed.

Lemma calls_cons (a : api) (e : event) (l : list event) :
  calls a (e :: l) =
  ((if api_eqb (api_of e) a then 1 else 0) + calls a l)%nat.
Proof. unfold calls. simpl. now destruct (api_eqb (api_of e) a). Qed.

(** ** The [for] loop of [force_reload_cursors] *)

Section Runs.

Variable os : OS.

Lemma install_copy_run arrow ocr_id log :
  install_copy os arrow ocr_id log =
  (tt, log ++ install_events os arrow (calls ApiCopyIcon log) ocr_id).
Proof.
  unfold install_copy, install_events, bind, CopyIcon, SetSystemCursor, call, ret.
  cbn.
  destruct (truthy (c_void_p_value (os_CopyIcon os (calls ApiCopyIcon log)))).
  - now rewrite <- app_assoc.
  - reflexivity.
Qed.

Lemma install_events_copies arrow n ocr_id :
  calls ApiCopyIcon (install_events os arrow n ocr_id) = 1%nat.
Proof.
  unfold install_events.
  now destruct (truthy (c_void_p_value (os_CopyIcon os n))).
Qed.

Lemma for_each_install_run arrow ids : forall log,
  for_each ids (install_copy os arrow) log =
  (tt, log ++ jolt_events os arrow (calls ApiCopyIcon log) ids).
Proof.
  induction ids as [|ocr_id ids IH]; intros log.
  - cbn. now rewrite app_nil_r.
  - cbn [for_each jolt_events]. unfold bind at 1.
    rewrite install_copy_run, IH, calls_app, install_events_copies.
    rewrite Nat.add_1_r, <- app_assoc. reflexivity.
Qed.

(** Only [CopyIcon] and [SetSystemCursor] are called by the [for] loop. *)
Lemma jolt_events_calls arrow ids : forall n a,
  calls a (jolt_events os arrow n ids) =
  match a with
  | ApiCopyIcon => length ids
  | ApiSetSystemCursor =>
      length (filter (fun k => truthy (c_void_p_value (os_CopyIcon os k)))
                     (seq n (length ids)))
  | _ => 0%nat
  end.
Proof.
  induction ids as [|ocr_id ids IH]; intros n a.
  - now destruct a.
  - cbn [jolt_events length seq filter]. rewrite calls_app, IH.
    unfold install_events.
    destruct (truthy (c_void_p_value (os_CopyIcon os n))); now destruct a.
Qed.

(** Every role is attempted: its copy is requested, and installed whenever
    the copy was obtained. *)
Lemma jolt_events_attempts arrow ids : forall n k ocr_id,
  nth_error ids k = Some ocr_id ->
  let copy := c_void_p_value (os_CopyIcon os (n + k)) in
  In (EvCopyIcon arrow) (jolt_events os arrow n ids) /\
  (truthy copy = true ->
   In (EvSetSystemCursor copy ocr_id) (jolt_events os arrow n ids)).
Proof.
  induction ids as [|x ids IH]; intros n k ocr_id Hk; [now destruct k|].
  cbn [jolt_events]. destruct k as [|k]; cbn in Hk.
  - injection Hk as ->. rewrite Nat.add_0_r. unfold install_events. split.
    + now left.
    + intros ->. right. now left.
  - specialize (IH (S n) k ocr_id Hk). cbn zeta in IH.
    rewrite Nat.add_succ_comm in IH. destruct IH as [IH1 IH2].
    split; [|intros Hc]; apply in_or_app; right; auto.
Qed.

End Runs.

(** Normalises the call counts of a log built by appending events. *)
Ltac count_calls :=
  repeat (rewrite ?calls_app, ?calls_cons, ?calls_nil, ?jolt_events_calls;
          cbn [api_of api_eqb]);
  rewrite ?Nat.add_0_r, ?Nat.add_0_l.

(** ** One iteration of the loop, by cases *)

Section Iteration.

Variable os : OS.

(** The run of [force_reload_cursors], spelled out. *)
Lemma force_reload_cursors_run log :
  force_reload_cursors os log =
  if truthy (arrow_of os log) then
    (truthy_int (reload_result os log),
     log ++ [EvLoadCursorW 0 IDC_ARROW]
         ++ jolt_events os (arrow_of os log) (calls ApiCopyIcon log) ALL_OCR_IDS
         ++ [EvSystemParametersInfoW SPI_SETCURSORS 0 None 0]
         ++ (if truthy_int (reload_result os log) then []
             else [EvGetLastError;
                   EvPrint (MsgSystemParametersInfoFailed
                              (os_last_error os (calls ApiGetLastError log)))]))
  else
    (false,
     log ++ [EvLoadCursorW 0 IDC_ARROW; EvGetLastError;
             EvPrint (MsgLoadCursorFailed
                        (os_last_error os (calls ApiGetLastError log)))]).
Proof.
  unfold force_reload_cursors, arrow_of, reload_result.
  unfold bind at 1. unfold LoadCursorW at 1, call at 1.
  destruct (truthy (c_void_p_value
                      (os_LoadCursorW os (calls ApiLoadCursorW log)))) eqn:Ha;
    cbn [negb].
  - unfold bind at 1. rewrite for_each_install_run.
    unfold bind, SystemParametersInfoW, get_last_error, print, call, ret.
    count_calls.
    destruct (truthy_int (os_SystemParametersInfoW os
                (calls ApiSystemParametersInfoW log))); cbn [negb];
      count_calls; rewrite <- ?app_assoc; reflexivity.
  - unfold bind, get_last_error, print, call, ret.
    count_calls. rewrite <- !app_assoc. reflexivity.
Qed.

Lemma get_cursor_handle_run log :
  get_cursor_handle os log = (next_sample os log, log ++ [EvGetCursorInfo]).
Proof.
  unfold next_sample, get_cursor_handle, bind, GetCursorInfo, call, ret.
  destruct (negb (truthy_int (fst (os_GetCursorInfo os (calls ApiGetCursorInfo log)))));
    [reflexivity|].
  now destruct (negb (truthy_int (Z.land
    (flags (snd (os_GetCursorInfo os (calls ApiGetCursorInfo log)))) CURSOR_SHOWING))).
Qed.

(** The answer of the sampler depends on the log only through the number
    of earlier queries; likewise for the clock. *)
Lemma next_sample_calls log log' :
  calls ApiGetCursorInfo log' = calls ApiGetCursorInfo log ->
  next_sample os log' = next_sample os log.
Proof.
  intros H. unfold next_sample, get_cursor_handle, bind, GetCursorInfo, call, ret.
  rewrite H.
  destruct (negb (truthy_int (fst (os_GetCursorInfo os (calls ApiGetCursorInfo log)))));
    [reflexivity|].
  now destruct (negb (truthy_int (Z.land
    (flags (snd (os_GetCursorInfo os (calls ApiGetCursorInfo log)))) CURSOR_SHOWING))).
Qed.

(** A repair calls [LoadCursorW] once; it neither reads the clock nor
    samples the cursor. *)
Lemma force_reload_cursors_repairs log :
  repairs (snd (force_reload_cursors os log)) = S (repairs log).
Proof.
  unfold repairs. rewrite force_reload_cursors_run.
  destruct (truthy (arrow_of os log)); cbn [snd]; count_calls;
    try destruct (truthy_int (reload_result os log)); count_calls; lia.
Qed.

Lemma force_reload_cursors_polls (a : api) log :
  a = ApiMonotonic \/ a = ApiGetCursorInfo ->
  calls a (snd (force_reload_cursors os log)) = calls a log.
Proof.
  intros [-> | ->]; rewrite force_reload_cursors_run;
    destruct (truthy (arrow_of os log)); cbn [snd]; count_calls;
    try destruct (truthy_int (reload_result os log)); count_calls; lia.
Qed.

(** The sample is falsy ([None] or [0]): line 99. *)
Lemma loop_body_skip now h st log :
  truthy h = false -> loop_body os now h st log = (st, log).
Proof. intros Hh. unfold loop_body. now rewrite Hh. Qed.

(** First valid sample: lines 102-105. *)
Lemma loop_body_first now h st log :
  truthy h = true -> last_h st = None ->
  loop_body os now h st log =
  (mkLoopState h (cooldown_until st), log ++ [EvPrint (MsgInitial h)]).
Proof. intros Hh Hl. unfold loop_body. now rewrite Hh, Hl. Qed.

(** Same handle as before: only line 117 runs. *)
Lemma loop_body_same now h st log :
  truthy h = true -> last_h st <> None -> py_eq h (last_h st) = true ->
  loop_body os now h st log = (mkLoopState h (cooldown_until st), log).
Proof.
  intros Hh Hl He. unfold loop_body. rewrite Hh.
  destruct (last_h st) eqn:E; [|congruence].
  now rewrite He.
Qed.

(** A change at or past the deadline: lines 110-112 and 117. *)
Lemma loop_body_reload now h st log :
  truthy h = true -> last_h st <> None -> py_eq h (last_h st) = false ->
  float_ge now (cooldown_until st) = true ->
  loop_body os now h st log =
  (mkLoopState h (PrimFloat.add now cooldown_sec),
   snd (force_reload_cursors os
          (log ++ [EvPrint (MsgSwitchReload (last_h st) h)]))).
Proof.
  intros Hh Hl He Hg. unfold loop_body. rewrite Hh.
  destruct (last_h st) eqn:E; [|congruence].
  rewrite He, Hg. cbn [negb]. unfold bind, print, call, ret.
  now destruct (force_reload_cursors os _).
Qed.

(** A change before the deadline: lines 114 and 117. *)
Lemma loop_body_cooldown now h st log :
  truthy h = true -> last_h st <> None -> py_eq h (last_h st) = false ->
  float_ge now (cooldown_until st) = false ->
  loop_body os now h st log =
  (mkLoopState h (cooldown_until st),
   log ++ [EvPrint (MsgSwitchCooldown (last_h st) h)]).
Proof.
  intros Hh Hl He Hg. unfold loop_body. rewrite Hh.
  destruct (last_h st) eqn:E; [|congruence].
  now rewrite He, Hg.
Qed.

Lemma loop_body_cases now h st :
  (truthy h = false) \/
  (truthy h = true /\ last_h st = None) \/
  (truthy h = true /\ last_h st <> None /\ py_eq h (last_h st) = true) \/
  (truthy h = true /\ last_h st <> None /\ py_eq h (last_h st) = false /\
   float_ge now (cooldown_until st) = true) \/
  (truthy h = true /\ last_h st <> None /\ py_eq h (last_h st) = false /\
   float_ge now (cooldown_until st) = false).
Proof.
  destruct (truthy h); [|now left]. right.
  destruct (last_h st) eqn:E; [|now left]. right.
  destruct (py_eq h (Some z)); [left; repeat split; congruence|]. right.
  destruct (float_ge now (cooldown_until st));
    [left|right]; repeat split; congruence.
Qed.

Lemma loop_body_repairs now h st log :
  repairs (snd (loop_body os now h st log)) =
  (repairs log + (if reaches_reload now h st then 1 else 0))%nat.
Proof.
  unfold reaches_reload, repairs.
  destruct (loop_body_cases now h st)
    as [H|[[H1 H2]|[(H1&H2&H3)|[(H1&H2&H3&H4)|(H1&H2&H3&H4)]]]].
  - rewrite loop_body_skip, H by assumption. cbn [snd andb]. lia.
  - rewrite loop_body_first, H1, H2 by assumption.
    cbn [snd andb]. count_calls. lia.
  - rewrite loop_body_same, H1, H3 by assumption.
    destruct (last_h st); [|congruence]. cbn [snd andb negb]. lia.
  - rewrite loop_body_reload, H1, H3, H4 by assumption.
    destruct (last_h st); [|congruence]. cbn [snd andb negb].
    fold (repairs (snd (force_reload_cursors os
            (log ++ [EvPrint (MsgSwitchReload (Some z) h)])))).
    rewrite force_reload_cursors_repairs. unfold repairs. count_calls. lia.
  - rewrite loop_body_cooldown, H1, H3, H4 by assumption.
    destruct (last_h st); [|congruence]. cbn [snd andb negb].
    count_calls. lia.
Qed.

Lemma loop_body_state now h st log :
  fst (loop_body os now h st log) =
  if truthy h then
    mkLoopState h (if reaches_reload now h st
                   then PrimFloat.add now cooldown_sec
                   else cooldown_until st)
  else st.
Proof.
  unfold reaches_reload.
  destruct (loop_body_cases now h st)
    as [H|[[H1 H2]|[(H1&H2&H3)|[(H1&H2&H3&H4)|(H1&H2&H3&H4)]]]].
  - now rewrite loop_body_skip, H.
  - now rewrite loop_body_first, H1, H2.
  - rewrite loop_body_same, H1, H3 by assumption. now destruct (last_h st).
  - rewrite loop_body_reload, H1, H3, H4 by assumption. now destruct (last_h st).
  - rewrite loop_body_cooldown, H1, H3, H4 by assumption. now destruct (last_h st).
Qed.

(** The body of the iteration neither reads the clock nor samples. *)
Lemma loop_body_calls (a : api) now h st log :
  a = ApiMonotonic \/ a = ApiGetCursorInfo ->
  calls a (snd (loop_body os now h st log)) = calls a log.
Proof.
  intros Ha.
  destruct (loop_body_cases now h st)
    as [H|[[H1 H2]|[(H1&H2&H3)|[(H1&H2&H3&H4)|(H1&H2&H3&H4)]]]].
  - now rewrite loop_body_skip.
  - rewrite loop_body_first by assumption. cbn [snd].
    destruct Ha as [-> | ->]; now count_calls.
  - now rewrite loop_body_same.
  - rewrite loop_body_reload by assumption. cbn [snd].
    rewrite force_reload_cursors_polls by assumption.
    destruct Ha as [-> | ->]; now count_calls.
  - rewrite loop_body_cooldown by assumption. cbn [snd].
    destruct Ha as [-> | ->]; now count_calls.
Qed.

Lemma iteration_run st log :
  iteration os st log =
  loop_body os (next_now os log) (next_sample os log) st
            (log ++ [EvSleep poll_interval_sec; EvMonotonic; EvGetCursorInfo]).
Proof.
  unfold iteration. unfold bind at 1. unfold sleep at 1, call at 1.
  unfold bind at 1. unfold monotonic at 1, call at 1.
  unfold bind at 1. rewrite get_cursor_handle_run.
  rewrite <- !app_assoc. cbn [app].
  f_equal.
  - unfold next_now, monotonic, call. cbn [fst]. now count_calls.
  - apply next_sample_calls. now count_calls.
Qed.

End Iteration.

(** ** The order of binary64 values *)

Lemma SFleb_trans (x y z : SpecFloat.spec_float) :
  SpecFloat.SFleb x y = true -> SpecFloat.SFleb y z = true ->
  SpecFloat.SFleb x z = true.
Proof.
  unfold SpecFloat.SFleb, SpecFloat.SFcompare.
  destruct x as [sx|sx| |sx mx ex], y as [sy|sy| |sy my ey],
           z as [sz|sz| |sz mz ez];
    try destruct sx; try destruct sy; try destruct sz;
    try (intros; reflexivity); try (intros; discriminate).
  all: change (Pos.compare_cont Eq) with Pos.compare.
  all: destruct (Z.compare_spec ex ey), (Z.compare_spec ey ez),
                (Z.compare_spec ex ez);
       try lia; try (intros; reflexivity); try (intros; discriminate); subst.
  all: destruct (Pos.compare_spec mx my), (Pos.compare_spec my mz),
                (Pos.compare_spec mx mz);
       try lia; try (intros; reflexivity); try (intros; discriminate).
Qed.

Lemma float_ge_trans (a b c : float) :
  float_ge a b = true -> float_ge b c = true -> float_ge a c = true.
Proof.
  unfold float_ge. rewrite !leb_spec. intros Hab Hbc.
  exact (SFleb_trans _ _ _ Hbc Hab).
Qed.

(** ** Runs of the loop *)

Section Ticks.

Variable os : OS.
Variable st0 : LoopState.
Variable log0 : list event.

Local Abbreviation state := (state_at os st0 log0).
Local Abbreviation log := (log_at os st0 log0).
Local Abbreviation clock := (tick_now os st0 log0).
Local Abbreviation sample := (tick_sample os st0 log0).
Local Abbreviation fires := (tick_repairs os st0 log0).

Lemma iterate_snoc n : forall st l,
  iterate os (S n) st l =
  iteration os (fst (iterate os n st l)) (snd (iterate os n st l)).
Proof.
  induction n as [|n IH]; intros st l.
  - cbn [iterate]. unfold bind, ret. cbn [fst snd].
    now destruct (iteration os st l).
  - change (iterate os (S (S n)) st l)
      with (bind (iteration os st) (fun st' => iterate os (S n) st') l).
    change (iterate os (S n) st l)
      with (bind (iteration os st) (fun st' => iterate os n st') l).
    unfold bind. destruct (iteration os st l) as [st1 l1]. apply IH.
Qed.

Lemma tick_run k :
  iterate os (S k) st0 log0 =
  loop_body os (clock k) (sample k) (state k)
    (log k ++ [EvSleep poll_interval_sec; EvMonotonic; EvGetCursorInfo]).
Proof. rewrite iterate_snoc. apply iteration_run. Qed.

Lemma tick_repairs_eq k :
  fires k =
  if reaches_reload (clock k) (sample k) (state k)
  then 1%nat else 0%nat.
Proof.
  unfold tick_repairs. unfold log_at at 1. rewrite tick_run, loop_body_repairs.
  unfold repairs. count_calls.
  destruct (reaches_reload _ _ _); lia.
Qed.

Lemma state_at_succ k :
  state (S k) =
  if truthy (sample k) then
    mkLoopState (sample k)
      (if reaches_reload (clock k) (sample k) (state k)
       then PrimFloat.add (clock k) cooldown_sec
       else cooldown_until (state k))
  else state k.
Proof. unfold state_at at 1. rewrite tick_run. apply loop_body_state. Qed.

(** Iteration [k] reads the clock and samples the cursor once: it gets the
    [k]-th answers that follow those already consumed in [log0]. *)
Lemma log_at_polls (a : api) k :
  a = ApiMonotonic \/ a = ApiGetCursorInfo ->
  calls a (log k) = (calls a log0 + k)%nat.
Proof.
  intros Ha. induction k as [|k IH]; [now rewrite Nat.add_0_r|].
  unfold log_at. rewrite tick_run, loop_body_calls by assumption.
  fold (log k). rewrite calls_app, IH.
  destruct Ha as [-> | ->]; count_calls; lia.
Qed.

Lemma tick_now_eq k :
  clock k = os_monotonic os (calls ApiMonotonic log0 + k).
Proof.
  unfold tick_now, next_now, monotonic, call. cbn [fst].
  rewrite log_at_polls by now left. reflexivity.
Qed.

(** An iteration that starts no repair keeps the deadline. *)
Lemma quiet_tick_keeps_deadline k :
  fires k = 0%nat ->
  cooldown_until (state (S k)) = cooldown_until (state k).
Proof.
  rewrite tick_repairs_eq, state_at_succ.
  destruct (reaches_reload _ _ _); [discriminate|].
  now destruct (truthy (sample k)).
Qed.

Lemma quiet_run_keeps_deadline i n :
  (forall k, (i <= k < i + n)%nat -> fires k = 0%nat) ->
  cooldown_until (state (i + n)) = cooldown_until (state i).
Proof.
  induction n as [|n IH]; intros H.
  - now rewrite Nat.add_0_r.
  - rewrite Nat.add_succ_r, quiet_tick_keeps_deadline by (apply H; lia).
    apply IH. intros k Hk. apply H. lia.
Qed.

(** An iteration that starts a repair moves the deadline. *)
Lemma repair_tick_sets_deadline k :
  fires k = 1%nat ->
  cooldown_until (state (S k)) = PrimFloat.add (clock k) cooldown_sec.
Proof.
  rewrite tick_repairs_eq, state_at_succ.
  destruct (reaches_reload _ _ _) eqn:E; [|discriminate].
  unfold reaches_reload in E. apply andb_prop in E as [-> _]. reflexivity.
Qed.

(** Before the deadline nothing is repaired. *)
Lemma early_tick_is_quiet k :
  float_ge (clock k) (cooldown_until (state k)) = false ->
  fires k = 0%nat.
Proof.
  intros H. rewrite tick_repairs_eq. unfold reaches_reload. rewrite H.
  destruct (truthy (sample k)); [|reflexivity].
  destruct (last_h (state k)); [|reflexivity].
  now rewrite andb_false_r.
Qed.

Lemma early_run_is_quiet i n :
  (forall k, (i <= k < i + n)%nat ->
             float_ge (clock k) (cooldown_until (state i)) = false) ->
  forall k, (i <= k < i + n)%nat -> fires k = 0%nat.
Proof.
  induction n as [|n IH]; intros H k Hk; [lia|].
  assert (Hq : forall k', (i <= k' < i + n)%nat -> fires k' = 0%nat).
  { apply IH. intros k' Hk'. apply H. lia. }
  destruct (Nat.eq_dec k (i + n)) as [->|Hne]; [|apply Hq; lia].
  apply early_tick_is_quiet. rewrite (quiet_run_keeps_deadline i n Hq).
  apply H. lia.
Qed.

(** A detected change: a valid handle that differs from the recorded one. *)
Lemma change_tick_repairs k (v l : Z) :
  last_h (state k) = Some l -> sample k = Some v ->
  v <> 0 -> v <> l ->
  fires k =
  if float_ge (clock k) (cooldown_until (state k)) then 1%nat else 0%nat.
Proof.
  intros Hl Hs Hv Hvl. rewrite tick_repairs_eq. unfold reaches_reload.
  rewrite Hs, Hl. cbn [truthy py_eq]. unfold truthy_int.
  destruct (Z.eqb_spec v 0); [contradiction|].
  destruct (Z.eqb_spec v l); [contradiction|]. reflexivity.
Qed.

(** The recorded handle is never [0] in a run that starts without one. *)
Lemma last_h_nonzero k :
  truthy (last_h st0) = true \/ last_h st0 = None ->
  truthy (last_h (state k)) = true \/ last_h (state k) = None.
Proof.
  intros H0. induction k as [|k IH]; [exact H0|].
  rewrite state_at_succ.
  destruct (truthy (sample k)) eqn:Ht; [|exact IH].
  left. exact Ht.
Qed.

End Ticks.

Lemma main_run (os : OS) (n : nat) (log : list event) :
  main os n log = iterate os n initial_state (log ++ [EvPrint MsgStarted]).
Proof. reflexivity. Qed.

(** * The claims *)

(** C1, as stated, fails in two ways.  First, the null handle: in the
    demonstration run iteration 11 starts with handle 10 recorded, samples
    [0] at a time past the deadline, and starts no repair, because line 98
    skips the iteration.  Second, the window: on [rounding_os] the change
    read at 0.08 starts a repair and the change read at 0.18 starts another,
    although the two times are less than 100 ms apart, both as the float
    difference and exactly ((2 * m18 - m08) * 2 ^ -56 < 1 / 10); the
    deadline stored by line 112 is the float sum 0.08 + 0.10, which rounds
    to 0.18. *)
Lemma debounce_as_stated_fails :
  (last_h (state_at demo_os initial_state started 11) = Some 10 /\
   tick_sample demo_os initial_state started 11 = Some 0 /\
   float_ge (tick_now demo_os initial_state started 11)
            (cooldown_until (state_at demo_os initial_state started 11))
   = true /\
   tick_repairs demo_os initial_state started 11 = 0%nat) /\
  (last_h (state_at rounding_os initial_state started 1) = Some 10 /\
   tick_sample rounding_os initial_state started 1 = Some 99 /\
   tick_now rounding_os initial_state started 1 = 0.08%float /\
   tick_repairs rounding_os initial_state started 1 = 1%nat /\
   last_h (state_at rounding_os initial_state started 2) = Some 99 /\
   tick_sample rounding_os initial_state started 2 = Some 10 /\
   tick_now rounding_os initial_state started 2 = 0.18%float /\
   PrimFloat.ltb (PrimFloat.sub 0.18 0.08) cooldown_sec = true /\
   snd (float_exact 0.18) = -55 /\ snd (float_exact 0.08) = -56 /\
   10 * (2 * fst (float_exact 0.18) - fst (float_exact 0.08)) < 2 ^ 56 /\
   PrimFloat.add 0.08 cooldown_sec = 0.18%float /\
   tick_repairs rounding_os initial_state started 2 = 1%nat).
Proof. repeat split; reflexivity. Qed.

(** C1, amended.  In a run of the loop, take an iteration [j] that starts
    with a handle recorded and samples a handle other than [None] and [0]
    that differs from it.  It starts a repair if and only if its time is at
    or past the deadline.  Hence, after an iteration [i] whose change
    started a repair, a change at [j] read before [now i + cooldown_sec],
    the float sum that line 112 stores, starts none, provided no time read
    between the two exceeds the one read by [j] (a monotonic clock); and a
    change at or past that sum starts one when no repair moved the deadline
    in between. *)
Theorem debounce (os : OS) (st0 : LoopState) (log0 : list event)
    (j : nat) (v l : Z) :
  last_h (state_at os st0 log0 j) = Some l ->
  tick_sample os st0 log0 j = Some v ->
  v <> 0 -> v <> l ->
  let now := tick_now os st0 log0 in
  let fires := tick_repairs os st0 log0 in
  (fires j = 1%nat <->
   float_ge (now j) (cooldown_until (state_at os st0 log0 j)) = true) /\
  (fires j = 0%nat <->
   float_ge (now j) (cooldown_until (state_at os st0 log0 j)) = false) /\
  (forall i, (i < j)%nat -> fires i = 1%nat ->
     (forall k, (i < k < j)%nat -> float_ge (now j) (now k) = true) ->
     float_ge (now j) (PrimFloat.add (now i) cooldown_sec) = false ->
     fires j = 0%nat) /\
  (forall i, (i < j)%nat -> fires i = 1%nat ->
     (forall k, (i < k < j)%nat -> fires k = 0%nat) ->
     float_ge (now j) (PrimFloat.add (now i) cooldown_sec) = true ->
     fires j = 1%nat).
Proof.
  intros Hl Hs Hv Hvl now fires. subst now fires.
  pose proof (change_tick_repairs os st0 log0 j v l Hl Hs Hv Hvl) as Hj.
  split; [|split; [|split]].
  - rewrite Hj. destruct (float_ge _ _); split; congruence.
  - rewrite Hj. destruct (float_ge _ _); split; congruence.
  - intros i Hij Hi Hmono Hearly.
    pose proof (repair_tick_sets_deadline os st0 log0 i Hi) as Hd.
    apply (early_run_is_quiet os st0 log0 (S i) (j - i)); [|lia].
    intros k Hk. rewrite Hd.
    destruct (Nat.eq_dec k j) as [->|Hne]; [exact Hearly|].
    destruct (float_ge (tick_now os st0 log0 k) _) eqn:E; [|reflexivity].
    rewrite <- Hearly. symmetry.
    apply float_ge_trans with (b := tick_now os st0 log0 k); [|exact E].
    apply Hmono. lia.
  - intros i Hij Hi Hquiet Hlate. rewrite Hj.
    replace j with (S i + (j - S i))%nat at 2 by lia.
    rewrite quiet_run_keeps_deadline by (intros k Hk; apply Hquiet; lia).
    now rewrite (repair_tick_sets_deadline os st0 log0 i Hi), Hlate.
Qed.

(** In the demonstration run the change at iteration 3 starts a repair and
    the change at iteration 4 falls within its cooldown; the change at
    iteration 8 comes after the deadline and starts a repair, and the change
    at iteration 10, two iterations later, is again within the cooldown. *)
Lemma debounce_witness :
  tick_repairs demo_os initial_state started 3 = 1%nat /\
  tick_repairs demo_os initial_state started 4 = 0%nat /\
  tick_repairs demo_os initial_state started 8 = 1%nat /\
  tick_repairs demo_os initial_state started 10 = 0%nat.
Proof.
  split; [|split; [|split]].
  - apply (debounce demo_os initial_state started 3 99 10);
      [reflexivity | reflexivity | discriminate | discriminate | reflexivity].
  - refine (proj1 (proj2 (proj2
      (debounce demo_os initial_state started 4 10 99 _ _ _ _))) 3%nat _ _ _ _);
      try reflexivity; try discriminate; try lia.
  - refine (proj2 (proj2 (proj2
      (debounce demo_os initial_state started 8 99 10 _ _ _ _))) 3%nat _ _ _ _);
      try reflexivity; try discriminate; try lia.
    intros k Hk.
    assert (Hc : k = 4%nat \/ k = 5%nat \/ k = 6%nat \/ k = 7%nat) by lia.
    destruct Hc as [->|[->|[->| ->]]]; reflexivity.
  - refine (proj1 (proj2 (proj2
      (debounce demo_os initial_state started 10 10 99 _ _ _ _))) 8%nat _ _ _ _);
      try reflexivity; try discriminate; try lia.
    intros k Hk. assert (Hc : k = 9%nat) by lia. now subst k.
Defined.

(** C2.  Whenever an iteration starts a repair, what it does after
    sampling is to print line 110 and run [force_reload_cursors], and the
    deadline it leaves behind is its own time plus [cooldown_sec].  The
    value returned by [force_reload_cursors] plays no part: the statement
    holds for every system, whether the repair succeeds or fails there. *)
Theorem deadline_after_repair (os : OS) (st0 : LoopState) (log0 : list event)
    (k : nat) :
  tick_repairs os st0 log0 k = 1%nat ->
  log_at os st0 log0 (S k) =
    snd (force_reload_cursors os
           (log_at os st0 log0 k ++
            [EvSleep poll_interval_sec; EvMonotonic; EvGetCursorInfo;
             EvPrint (MsgSwitchReload (last_h (state_at os st0 log0 k))
                                      (tick_sample os st0 log0 k))])) /\
  cooldown_until (state_at os st0 log0 (S k)) =
    PrimFloat.add (tick_now os st0 log0 k) cooldown_sec.
Proof.
  intros Hk. split; [|now apply repair_tick_sets_deadline].
  rewrite tick_repairs_eq in Hk.
  destruct (reaches_reload _ _ _) eqn:E; [clear Hk|discriminate].
  unfold reaches_reload in E. apply andb_prop in E as [Ht E].
  destruct (last_h (state_at os st0 log0 k)) as [l|] eqn:Hl; [|discriminate].
  apply andb_prop in E as [He Hg]. apply negb_true_iff in He.
  unfold log_at at 1. rewrite tick_run, loop_body_reload;
    rewrite ?Hl; try assumption; try discriminate.
  cbn [snd]. now rewrite <- app_assoc.
Qed.

(** The change of iteration 3 starts a repair that returns [False] on
    [broken_os] and [True] on [demo_os]; the deadline is moved to
    0.08 + 0.10 on both. *)
Lemma deadline_after_repair_witness :
  (fst (force_reload_cursors broken_os
          (log_at broken_os initial_state started 3 ++
           [EvSleep poll_interval_sec; EvMonotonic; EvGetCursorInfo;
            EvPrint (MsgSwitchReload (Some 10) (Some 99))]))
   = false /\
   cooldown_until (state_at broken_os initial_state started 4) =
   PrimFloat.add 0.08%float cooldown_sec) /\
  (fst (force_reload_cursors demo_os
          (log_at demo_os initial_state started 3 ++
           [EvSleep poll_interval_sec; EvMonotonic; EvGetCursorInfo;
            EvPrint (MsgSwitchReload (Some 10) (Some 99))]))
   = true /\
   cooldown_until (state_at demo_os initial_state started 4) =
   PrimFloat.add 0.08%float cooldown_sec).
Proof.
  split; (split; [reflexivity|]).
  - apply (deadline_after_repair broken_os initial_state started 3 eq_refl).
  - apply (deadline_after_repair demo_os initial_state started 3 eq_refl).
Defined.

(** C3, as stated, fails when the first sample that is not [None] is the
    null handle: [get_cursor_handle] returns [0], line 98 skips the
    iteration and nothing is recorded. *)
Lemma first_sample_null_handle :
  tick_sample null_first_os initial_state started 0 = Some 0 /\
  last_h (state_at null_first_os initial_state started 1) = None.
Proof. split; reflexivity. Qed.

(** C3, amended.  In a run that starts with no handle recorded, the first
    iteration that samples a handle other than [None] and [0] records it
    and starts no repair, whatever the handle is; no earlier iteration
    starts a repair either. *)
Theorem first_sample_is_recorded (os : OS) (st0 : LoopState)
    (log0 : list event) (n : nat) (v : Z) :
  last_h st0 = None ->
  (forall k, (k < n)%nat -> truthy (tick_sample os st0 log0 k) = false) ->
  tick_sample os st0 log0 n = Some v ->
  v <> 0 ->
  last_h (state_at os st0 log0 (S n)) = Some v /\
  (forall k, (k <= n)%nat -> tick_repairs os st0 log0 k = 0%nat).
Proof.
  intros H0 Hskip Hs Hv.
  assert (Hst : forall k, (k <= n)%nat -> state_at os st0 log0 k = st0).
  { induction k as [|k IH]; intros Hk; [reflexivity|].
    rewrite state_at_succ, Hskip by lia. apply IH. lia. }
  assert (Hnone : forall k, (k <= n)%nat ->
                            tick_repairs os st0 log0 k = 0%nat).
  { intros k Hk. rewrite tick_repairs_eq. unfold reaches_reload.
    rewrite (Hst k Hk), H0. now rewrite andb_false_r. }
  split; [|exact Hnone].
  rewrite state_at_succ, Hs. cbn [truthy]. unfold truthy_int.
  destruct (Z.eqb_spec v 0); [contradiction|]. reflexivity.
Qed.

(** The demonstration run: iteration 0 sees a hidden cursor, iteration 1
    records handle 10 without a repair. *)
Lemma first_sample_is_recorded_witness :
  last_h (state_at demo_os initial_state started 2) = Some 10 /\
  tick_repairs demo_os initial_state started 1 = 0%nat.
Proof.
  destruct (first_sample_is_recorded demo_os initial_state started 1 10)
    as [Hrec Hquiet].
  - reflexivity.
  - intros k Hk. assert (Hc : k = 0%nat) by lia. now subst k.
  - reflexivity.
  - discriminate.
  - split; [exact Hrec | apply Hquiet; lia].
Defined.

(** C4.  Once the arrow is loaded, [force_reload_cursors] requests a copy
    for each of the 13 roles, installs every copy it obtained for its role
    whatever happened to the other roles, asks for the reload after the last
    role, and returns [True] when the reload succeeded.  The results of
    [SetSystemCursor] are never consulted. *)
Theorem force_reload_cursors_best_effort (os : OS) (log : list event) :
  truthy (arrow_of os log) = true ->
  exists jolt tail : list event,
    snd (force_reload_cursors os log) =
      log ++ [EvLoadCursorW 0 IDC_ARROW] ++ jolt
          ++ [EvSystemParametersInfoW SPI_SETCURSORS 0 None 0] ++ tail /\
    length ALL_OCR_IDS = 13%nat /\
    calls ApiCopyIcon jolt = 13%nat /\
    (forall k ocr_id, nth_error ALL_OCR_IDS k = Some ocr_id ->
       In (EvCopyIcon (arrow_of os log)) jolt /\
       (truthy (c_void_p_value (os_CopyIcon os (calls ApiCopyIcon log + k)))
        = true ->
        In (EvSetSystemCursor
              (c_void_p_value (os_CopyIcon os (calls ApiCopyIcon log + k)))
              ocr_id) jolt)) /\
    calls ApiSystemParametersInfoW jolt = 0%nat /\
    calls ApiSystemParametersInfoW tail = 0%nat /\
    (truthy_int (reload_result os log) = true ->
     fst (force_reload_cursors os log) = true).
Proof.
  intros Ha. rewrite force_reload_cursors_run, Ha.
  exists (jolt_events os (arrow_of os log) (calls ApiCopyIcon log) ALL_OCR_IDS).
  eexists. split; [reflexivity|].
  split; [reflexivity|].
  split; [now rewrite jolt_events_calls|].
  split; [intros k ocr_id Hk; now apply jolt_events_attempts|].
  split; [now rewrite jolt_events_calls|].
  split; [|now intros ->].
  destruct (truthy_int (reload_result os log)); reflexivity.
Qed.

(** On [demo_os] the fourth copy fails and the second install is refused;
    the role after the failed copy (index 4, [OCR_UP]) is installed
    nevertheless and the function returns [True]. *)
Lemma force_reload_cursors_best_effort_witness :
  fst (force_reload_cursors demo_os []) = true /\
  In (EvSetSystemCursor (Some 7004) 32516)
     (snd (force_reload_cursors demo_os [])).
Proof.
  destruct (force_reload_cursors_best_effort demo_os [] eq_refl)
    as (jolt & tail & Hlog & _ & _ & Hroles & _ & _ & Hret).
  split; [apply Hret; reflexivity|].
  rewrite Hlog. apply in_or_app. right. apply in_or_app. right.
  apply in_or_app. left.
  exact (proj2 (Hroles 4%nat 32516 eq_refl) eq_refl).
Defined.

(** C5.  [force_reload_cursors] returns [False] exactly when the arrow
    handle is not obtained or the reload request fails, and [True]
    otherwise. *)
Theorem force_reload_cursors_result (os : OS) (log : list event) :
  (fst (force_reload_cursors os log) = false <->
   truthy (arrow_of os log) = false \/
   (truthy (arrow_of os log) = true /\
    In (EvSystemParametersInfoW SPI_SETCURSORS 0 None 0)
       (snd (force_reload_cursors os log)) /\
    truthy_int (reload_result os log) = false)) /\
  (fst (force_reload_cursors os log) = true <->
   truthy (arrow_of os log) = true /\
   truthy_int (reload_result os log) = true).
Proof.
  rewrite force_reload_cursors_run.
  destruct (truthy (arrow_of os log)) eqn:Ha; cbn [fst snd].
  - destruct (truthy_int (reload_result os log)) eqn:Hr; split; split.
    + discriminate.
    + intros [H|(_ & _ & H)]; discriminate.
    + auto.
    + auto.
    + intros _. right. repeat split.
      apply in_or_app. right. apply in_or_app. right.
      apply in_or_app. right. apply in_or_app. left. now left.
    + auto.
    + discriminate.
    + intros [_ H]; discriminate.
  - split; split.
    + auto.
    + auto.
    + discriminate.
    + intros [H _]; discriminate.
Qed.

(** The three outcomes, each on a system of its own. *)
Lemma force_reload_cursors_result_witness :
  fst (force_reload_cursors broken_os []) = false /\
  fst (force_reload_cursors no_reload_os []) = false /\
  fst (force_reload_cursors demo_os []) = true.
Proof.
  split; [|split].
  - apply (proj1 (force_reload_cursors_result broken_os [])). now left.
  - apply (proj1 (force_reload_cursors_result no_reload_os [])). right.
    split; [reflexivity|]. split; [|reflexivity].
    vm_compute. do 27 right. now left.
  - apply (proj2 (force_reload_cursors_result demo_os [])).
    split; reflexivity.
Defined.

(** C6.  Once a handle is recorded, every later state of the run has a
    handle recorded: no iteration goes back to the initial situation. *)
Theorem tracking_is_permanent (os : OS) (st0 : LoopState) (log0 : list event)
    (n m : nat) (x : Z) :
  last_h (state_at os st0 log0 n) = Some x ->
  exists y : Z, last_h (state_at os st0 log0 (n + m)) = Some y.
Proof.
  intros Hn. induction m as [|m [y IH]].
  - exists x. now rewrite Nat.add_0_r.
  - rewrite Nat.add_succ_r, state_at_succ.
    destruct (tick_sample os st0 log0 (n + m)) as [z|] eqn:Hs; cbn [truthy].
    + destruct (truthy_int z); [now exists z | now exists y].
    + now exists y.
Qed.

(** In the demonstration run handle 10 is recorded after iteration 1, and
    a handle is still recorded after hidden cursors, failed queries and null
    handles, twelve iterations later. *)
Lemma tracking_is_permanent_witness :
  exists y : Z, last_h (state_at demo_os initial_state started (2 + 12)) = Some y.
Proof.
  apply (tracking_is_permanent demo_os initial_state started 2 12 10).
  reflexivity.
Defined.

(** C7.  An iteration whose sample is [None] leaves the state (recorded
    handle and deadline) as it was and starts no repair.  So when iterations
    [i+1 .. i+n] all sample [None] and iteration [i+n+1] samples what
    iteration [i] sampled, the handle recorded after iteration [i] is still
    the one recorded after iteration [i+n+1], and none of the iterations
    [i+1 .. i+n+1] starts a repair. *)
Theorem none_sample_is_skipped (os : OS) (st0 : LoopState) (log0 : list event) :
  (forall k, tick_sample os st0 log0 k = None ->
     state_at os st0 log0 (S k) = state_at os st0 log0 k /\
     tick_repairs os st0 log0 k = 0%nat) /\
  (forall i n,
     (forall k, (i < k <= i + n)%nat -> tick_sample os st0 log0 k = None) ->
     tick_sample os st0 log0 (i + n + 1) = tick_sample os st0 log0 i ->
     (forall k, (i < k <= i + n + 1)%nat ->
        last_h (state_at os st0 log0 (S k)) =
        last_h (state_at os st0 log0 (i + 1)) /\
        tick_repairs os st0 log0 k = 0%nat)).
Proof.
  assert (Hskip : forall k, tick_sample os st0 log0 k = None ->
            state_at os st0 log0 (S k) = state_at os st0 log0 k /\
            tick_repairs os st0 log0 k = 0%nat).
  { intros k Hk. rewrite state_at_succ, tick_repairs_eq.
    unfold reaches_reload. now rewrite Hk. }
  split; [exact Hskip|]. intros i n Hnone Hsame.
  assert (Hst : forall m, (m <= n)%nat ->
            state_at os st0 log0 (i + 1 + m) = state_at os st0 log0 (i + 1)).
  { induction m as [|m IH]; intros Hm; [now rewrite Nat.add_0_r|].
    rewrite Nat.add_succ_r.
    rewrite (proj1 (Hskip (i + 1 + m)%nat (Hnone (i + 1 + m)%nat ltac:(lia)))).
    apply IH. lia. }
  intros k Hk.
  destruct (Nat.eq_dec k (i + n + 1)) as [->|Hne].
  - replace (i + n + 1)%nat with (i + 1 + n)%nat in * by lia.
    rewrite tick_repairs_eq, state_at_succ. unfold reaches_reload.
    rewrite (Hst n (le_n n)), Hsame.
    replace (i + 1)%nat with (S i) by lia.
    rewrite (state_at_succ os st0 log0 i).
    destruct (truthy (tick_sample os st0 log0 i)) eqn:Ht; cbn [last_h andb].
    + split; [reflexivity|].
      destruct (tick_sample os st0 log0 i) as [z|]; [|discriminate].
      cbn [py_eq]. now rewrite Z.eqb_refl.
    + split; reflexivity.
  - destruct (Hskip k (Hnone k ltac:(lia))) as [Hs Hq].
    split; [|exact Hq]. rewrite Hs.
    replace k with (i + 1 + (k - i - 1))%nat by lia.
    rewrite Hst by lia. reflexivity.
Qed.

(** In the demonstration run iteration 4 samples handle 10, iterations 5
    and 6 sample [None] (a failed query, a hidden cursor) and iteration 7
    samples 10 again. *)
Lemma none_sample_is_skipped_witness :
  state_at demo_os initial_state started 6 =
  state_at demo_os initial_state started 5 /\
  last_h (state_at demo_os initial_state started 8) = Some 10 /\
  tick_repairs demo_os initial_state started 7 = 0%nat.
Proof.
  destruct (none_sample_is_skipped demo_os initial_state started)
    as [Hskip Hrun].
  split; [apply (Hskip 5%nat); reflexivity|].
  assert (Hnone : forall k, (4 < k <= 4 + 2)%nat ->
                    tick_sample demo_os initial_state started k = None).
  { intros k Hk. assert (Hc : k = 5%nat \/ k = 6%nat) by lia.
    destruct Hc as [-> | ->]; reflexivity. }
  destruct (Hrun 4%nat 2%nat Hnone eq_refl 7%nat ltac:(lia)) as [H1 H2].
  split; [|exact H2]. etransitivity; [exact H1 | reflexivity].
Defined.

(** C8, as stated, fails when the sample is the null handle: it is not
    [None] and differs from the recorded handle, yet line 98 skips the
    iteration and the recorded handle stays. *)
Lemma tracking_null_handle :
  last_h (state_at demo_os initial_state started 9) = Some 99 /\
  tick_sample demo_os initial_state started 9 = Some 0 /\
  last_h (state_at demo_os initial_state started 10) = Some 99.
Proof. repeat split; reflexivity. Qed.

(** C8, amended.  An iteration that starts with a handle recorded and
    samples a handle other than [None] and [0] that differs from it records
    the new handle, both when the change starts a repair (time at or past
    the deadline) and when it falls within the cooldown. *)
Theorem change_is_recorded (os : OS) (st0 : LoopState) (log0 : list event)
    (k : nat) (v l : Z) :
  last_h (state_at os st0 log0 k) = Some l ->
  tick_sample os st0 log0 k = Some v ->
  v <> 0 -> v <> l ->
  last_h (state_at os st0 log0 (S k)) = Some v /\
  tick_repairs os st0 log0 k =
  if float_ge (tick_now os st0 log0 k)
              (cooldown_until (state_at os st0 log0 k))
  then 1%nat else 0%nat.
Proof.
  intros Hl Hs Hv Hvl. split.
  - rewrite state_at_succ, Hs. cbn [truthy]. unfold truthy_int.
    destruct (Z.eqb_spec v 0); [contradiction|]. reflexivity.
  - now apply change_tick_repairs with (v := v) (l := l).
Qed.

(** The demonstration run: the change of iteration 3 starts a repair, the
    change of iteration 4 does not, and both are recorded. *)
Lemma change_is_recorded_witness :
  (last_h (state_at demo_os initial_state started 4) = Some 99 /\
   tick_repairs demo_os initial_state started 3 = 1%nat) /\
  (last_h (state_at demo_os initial_state started 5) = Some 10 /\
   tick_repairs demo_os initial_state started 4 = 0%nat).
Proof.
  split.
  - apply (change_is_recorded demo_os initial_state started 3 99 10);
      [reflexivity | reflexivity | discriminate | discriminate].
  - apply (change_is_recorded demo_os initial_state started 4 10 99);
      [reflexivity | reflexivity | discriminate | discriminate].
Defined.

(** C9.  When the query succeeds and reports a shown cursor with a null
    handle, [get_cursor_handle] returns [0], not [None]; the loop treats a
    sample [0] exactly as it treats [None], leaving state and log untouched,
    so an iteration that samples [0] changes nothing and starts no repair;
    and in every state reached by [main] the recorded handle is [None] or a
    nonzero integer. *)
Theorem null_handle_is_skipped :
  (forall (os : OS) (log : list event),
     fst (os_GetCursorInfo os (calls ApiGetCursorInfo log)) <> 0 ->
     Z.land (flags (snd (os_GetCursorInfo os (calls ApiGetCursorInfo log))))
            CURSOR_SHOWING <> 0 ->
     hCursor (snd (os_GetCursorInfo os (calls ApiGetCursorInfo log))) = 0 ->
     fst (get_cursor_handle os log) = Some 0) /\
  (forall (os : OS) (now : float) (st : LoopState) (log : list event),
     loop_body os now (Some 0) st log = (st, log) /\
     loop_body os now (Some 0) st log = loop_body os now None st log) /\
  (forall (os : OS) (st0 : LoopState) (log0 : list event) (k : nat),
     tick_sample os st0 log0 k = Some 0 ->
     state_at os st0 log0 (S k) = state_at os st0 log0 k /\
     tick_repairs os st0 log0 k = 0%nat) /\
  (forall (os : OS) (n : nat) (log : list event),
     last_h (fst (main os n log)) = None \/
     exists v : Z, last_h (fst (main os n log)) = Some v /\ v <> 0).
Proof.
  split; [|split; [|split]].
  - intros os log Hok Hshow Hnull.
    unfold get_cursor_handle, bind, GetCursorInfo, call, ret. cbn [fst snd].
    unfold truthy_int.
    destruct (Z.eqb_spec (fst (os_GetCursorInfo os (calls ApiGetCursorInfo log))) 0);
      [contradiction|]. cbn [negb].
    destruct (Z.eqb_spec (Z.land (flags (snd (os_GetCursorInfo os
                (calls ApiGetCursorInfo log)))) CURSOR_SHOWING) 0);
      [contradiction|]. cbn [negb fst].
    now rewrite Hnull.
  - intros os now st log. now rewrite !loop_body_skip.
  - intros os st0 log0 k Hk. rewrite state_at_succ, tick_repairs_eq.
    unfold reaches_reload. now rewrite Hk.
  - intros os n log. rewrite main_run.
    destruct (last_h_nonzero os initial_state (log ++ [EvPrint MsgStarted]) n)
      as [H|H]; [now right | | now left].
    right. unfold state_at in H.
    destruct (last_h (fst (iterate os n initial_state _))) as [v|];
      [|discriminate].
    exists v. split; [reflexivity|]. intros ->. discriminate.
Qed.

(** On [null_first_os] the first sample is [0]; an iteration that samples
    [0] with handle 99 recorded changes nothing; and the demonstration run,
    which samples [0] at iterations 9 and 11, never records it. *)
Lemma null_handle_is_skipped_witness :
  fst (get_cursor_handle null_first_os started) = Some 0 /\
  loop_body demo_os 0.22%float (Some 0) (mkLoopState (Some 99) 0.3%float) []
  = (mkLoopState (Some 99) 0.3%float, []) /\
  (last_h (fst (main demo_os 12 [])) = None \/
   exists v : Z, last_h (fst (main demo_os 12 [])) = Some v /\ v <> 0).
Proof.
  destruct null_handle_is_skipped as (Hzero & Hskip & _ & Hinv).
  split; [|split].
  - apply Hzero; [discriminate | discriminate | reflexivity].
  - apply Hskip.
  - apply Hinv.
Defined.

(** C10.  An iteration that starts no repair leaves the deadline as it was;
    this covers the iterations without a valid sample, those that sample
    the recorded handle again, and those whose change falls before the
    deadline.  Conversely, an iteration that moves the deadline starts a
    repair. *)
Theorem deadline_moves_only_on_repair (os : OS) (st0 : LoopState)
    (log0 : list event) (k : nat) :
  (tick_repairs os st0 log0 k = 0%nat ->
   cooldown_until (state_at os st0 log0 (S k)) =
   cooldown_until (state_at os st0 log0 k)) /\
  (truthy (tick_sample os st0 log0 k) = false ->
   tick_repairs os st0 log0 k = 0%nat) /\
  (py_eq (tick_sample os st0 log0 k) (last_h (state_at os st0 log0 k)) = true ->
   tick_repairs os st0 log0 k = 0%nat) /\
  (float_ge (tick_now os st0 log0 k)
            (cooldown_until (state_at os st0 log0 k)) = false ->
   tick_repairs os st0 log0 k = 0%nat) /\
  (cooldown_until (state_at os st0 log0 (S k)) <>
   cooldown_until (state_at os st0 log0 k) ->
   tick_repairs os st0 log0 k = 1%nat).
Proof.
  split; [apply quiet_tick_keeps_deadline|].
  split; [|split; [|split]].
  - intros H. rewrite tick_repairs_eq. unfold reaches_reload. now rewrite H.
  - intros H. rewrite tick_repairs_eq. unfold reaches_reload. rewrite H.
    destruct (last_h (state_at os st0 log0 k));
      now rewrite ?andb_false_r.
  - apply early_tick_is_quiet.
  - intros Hmoved.
    pose proof (quiet_tick_keeps_deadline os st0 log0 k) as Hquiet.
    rewrite tick_repairs_eq in *.
    destruct (reaches_reload _ _ _); [reflexivity|].
    now destruct Hmoved; apply Hquiet.
Qed.

(** The demonstration run: the change of iteration 10 falls within the
    cooldown opened at iteration 8 and the deadline stays at 0.20 + 0.10. *)
Lemma deadline_moves_only_on_repair_witness :
  cooldown_until (state_at demo_os initial_state started 11) =
  PrimFloat.add 0.20%float cooldown_sec.
Proof.
  destruct (deadline_moves_only_on_repair demo_os initial_state started 10)
    as (Hkeep & _ & _ & Hearly & _).
  etransitivity; [apply Hkeep, Hearly; reflexivity | reflexivity].
Defined.

(** * Further properties *)

(** ** The sampler *)

Lemma land_showing (f : Z) : truthy_int (Z.land f CURSOR_SHOWING) = Z.odd f.
Proof.
  unfold truthy_int, CURSOR_SHOWING.
  change 1 with (Z.ones 1). rewrite Z.land_ones by lia.
  change (2 ^ 1) with 2. rewrite Zmod_odd.
  now destruct (Z.odd f).
Qed.

Lemma handle_value (raw : Z) : py_or (c_void_p_value raw) 0 = raw.
Proof.
  unfold py_or, c_void_p_value.
  destruct (Z.eqb_spec raw 0) as [->|Hne]; [reflexivity|].
  cbn [truthy]. unfold truthy_int.
  now destruct (Z.eqb_spec raw 0).
Qed.

(** X1.  [get_cursor_handle] makes one query and nothing else.  It returns
    [None] when the query fails or when bit 0 of [flags] is clear (whatever
    the other bits are), and otherwise the handle as an integer, [0] for a
    null handle. *)
Theorem get_cursor_handle_result (os : OS) (log : list event) :
  get_cursor_handle os log =
  (let r := os_GetCursorInfo os (calls ApiGetCursorInfo log) in
   if (fst r =? 0) || negb (Z.odd (flags (snd r))) then None
   else Some (hCursor (snd r)),
   log ++ [EvGetCursorInfo]).
Proof.
  unfold get_cursor_handle, bind, GetCursorInfo, call, ret. cbn zeta.
  rewrite land_showing, handle_value. unfold truthy_int.
  destruct (fst (os_GetCursorInfo os (calls ApiGetCursorInfo log)) =? 0);
    cbn [negb orb]; [reflexivity|].
  now destruct (Z.odd (flags (snd (os_GetCursorInfo os
                                     (calls ApiGetCursorInfo log))))).
Qed.

(** ** The repair action *)

Lemma skipn_app_exact {A : Type} (l d : list A) :
  skipn (length l) (l ++ d) = d.
Proof. induction l as [|x l IH]; [reflexivity | exact IH]. Qed.

Lemma installed_app (l1 l2 : list event) :
  installed (l1 ++ l2) = installed l1 ++ installed l2.
Proof.
  induction l1 as [|e l1 IH]; [reflexivity|].
  destruct e; cbn [app installed]; rewrite IH; reflexivity.
Qed.

Lemma installed_jolt_events (os : OS) (arrow : option Z) (ids : list Z) :
  forall n,
  installed (jolt_events os arrow n ids) =
  map (fun p => (c_void_p_value (os_CopyIcon os (fst p)), snd p))
      (filter (fun p => truthy (c_void_p_value (os_CopyIcon os (fst p))))
              (combine (seq n (length ids)) ids)).
Proof.
  induction ids as [|ocr_id ids IH]; intros n; [reflexivity|].
  cbn [jolt_events length seq combine filter fst]. rewrite installed_app, IH.
  unfold install_events.
  destruct (truthy (c_void_p_value (os_CopyIcon os n))); reflexivity.
Qed.

Lemma emitted_force_reload_cursors (os : OS) (log : list event) :
  snd (force_reload_cursors os log) =
  log ++ emitted (force_reload_cursors os) log.
Proof.
  unfold emitted. rewrite force_reload_cursors_run.
  destruct (truthy (arrow_of os log)); cbn [snd];
    now rewrite skipn_app_exact.
Qed.

(** X2.  When [LoadCursorW] returns a null handle, [force_reload_cursors]
    returns [False] after printing the error code; it requests no copy,
    installs no cursor and does not ask for the reload. *)
Theorem force_reload_cursors_without_arrow (os : OS) (log : list event) :
  os_LoadCursorW os (calls ApiLoadCursorW log) = 0 ->
  fst (force_reload_cursors os log) = false /\
  emitted (force_reload_cursors os) log =
    [EvLoadCursorW 0 IDC_ARROW; EvGetLastError;
     EvPrint (MsgLoadCursorFailed
                (os_last_error os (calls ApiGetLastError log)))] /\
  (forall a, a = ApiCopyIcon \/ a = ApiSetSystemCursor \/
             a = ApiSystemParametersInfoW ->
             calls a (snd (force_reload_cursors os log)) = calls a log).
Proof.
  intros Hnull. unfold emitted. rewrite force_reload_cursors_run.
  unfold arrow_of. rewrite Hnull. cbn [c_void_p_value Z.eqb truthy fst snd].
  split; [reflexivity|]. split; [apply skipn_app_exact|].
  intros a [-> | [-> | ->]]; now count_calls.
Qed.

Lemma force_reload_cursors_without_arrow_witness :
  fst (force_reload_cursors broken_os started) = false /\
  calls ApiSetSystemCursor (snd (force_reload_cursors broken_os started))
  = 0%nat.
Proof.
  destruct (force_reload_cursors_without_arrow broken_os started eq_refl)
    as (Hret & _ & Hnone).
  split; [exact Hret|]. rewrite Hnone by (right; now left). reflexivity.
Defined.

(** X3.  The installs made by [force_reload_cursors] are, in the order of
    [ALL_OCR_IDS], one per role whose copy was obtained, each with the
    handle that [CopyIcon] returned for that role; there are none when the
    arrow could not be loaded. *)
Theorem force_reload_cursors_installs (os : OS) (log : list event) :
  installed (emitted (force_reload_cursors os) log) =
  if truthy (arrow_of os log) then
    map (fun p => (c_void_p_value (os_CopyIcon os (fst p)), snd p))
        (filter (fun p => truthy (c_void_p_value (os_CopyIcon os (fst p))))
                (combine (seq (calls ApiCopyIcon log) (length ALL_OCR_IDS))
                         ALL_OCR_IDS))
  else [].
Proof.
  unfold emitted. rewrite force_reload_cursors_run.
  destruct (truthy (arrow_of os log)); cbn [snd]; rewrite skipn_app_exact.
  - rewrite !installed_app, installed_jolt_events.
    destruct (truthy_int (reload_result os log)); cbn [installed app];
      now rewrite app_nil_r.
  - reflexivity.
Qed.

Lemma ALL_OCR_IDS_distinct : NoDup ALL_OCR_IDS.
Proof.
  unfold ALL_OCR_IDS.
  repeat (constructor; [cbn [In]; intuition discriminate|]).
  constructor.
Qed.

Lemma roles_of_filter_combine {A : Type} (f : A * Z -> bool) (ids : list Z) :
  forall (s : list A) (x : Z),
  In x (map snd (filter f (combine s ids))) -> In x ids.
Proof.
  intros s x Hx. apply in_map_iff in Hx as ([a y] & <- & Hin).
  apply filter_In in Hin as [Hin _]. now apply in_combine_r in Hin.
Qed.

Lemma roles_distinct {A : Type} (f : A * Z -> bool) (ids : list Z) :
  NoDup ids -> forall s : list A, NoDup (map snd (filter f (combine s ids))).
Proof.
  induction 1 as [|x ids Hx Hnd IH]; intros s.
  - destruct s; constructor.
  - destruct s as [|a s]; [constructor|].
    cbn [combine filter]. destruct (f (a, x)); [|apply IH].
    cbn [map snd]. constructor; [|apply IH].
    intros Hin. apply Hx. eapply roles_of_filter_combine, Hin.
Qed.

Lemma roles_complete (c : nat -> bool) (ids : list Z) : forall n,
  (forall k, (n <= k < n + length ids)%nat -> c k = true) ->
  map snd (filter (fun p : nat * Z => c (fst p))
                  (combine (seq n (length ids)) ids)) = ids.
Proof.
  induction ids as [|x ids IH]; intros n Hall; [reflexivity|].
  cbn [length seq combine filter fst]. rewrite Hall by (cbn [length]; lia).
  cbn [map snd]. f_equal. apply IH. intros k Hk. apply Hall. cbn [length]. lia.
Qed.

(** X4.  Every install made by [force_reload_cursors] passes a non-null
    handle, and no role is installed twice.  When the arrow is loaded and
    each of the 13 copies is obtained, the roles installed are exactly
    [ALL_OCR_IDS], in that order. *)
Theorem force_reload_cursors_roles (os : OS) (log : list event) :
  Forall (fun p => truthy (fst p) = true)
         (installed (emitted (force_reload_cursors os) log)) /\
  NoDup (map snd (installed (emitted (force_reload_cursors os) log))) /\
  (truthy (arrow_of os log) = true ->
   (forall k, (k < 13)%nat ->
      os_CopyIcon os (calls ApiCopyIcon log + k) <> 0) ->
   map snd (installed (emitted (force_reload_cursors os) log)) = ALL_OCR_IDS).
Proof.
  assert (Hinst :
    installed (emitted (force_reload_cursors os) log) =
    if truthy (arrow_of os log) then
      map (fun p => (c_void_p_value (os_CopyIcon os (fst p)), snd p))
          (filter (fun p => truthy (c_void_p_value (os_CopyIcon os (fst p))))
                  (combine (seq (calls ApiCopyIcon log) (length ALL_OCR_IDS))
                           ALL_OCR_IDS))
    else []).
  { unfold emitted. rewrite force_reload_cursors_run.
    destruct (truthy (arrow_of os log)); cbn [snd]; rewrite skipn_app_exact;
      [|reflexivity].
    rewrite !installed_app, installed_jolt_events.
    destruct (truthy_int (reload_result os log)); cbn [installed app];
      now rewrite app_nil_r. }
  rewrite Hinst. destruct (truthy (arrow_of os log)).
  - rewrite map_map. cbn [snd]. split; [|split].
    + apply Forall_forall. intros p Hp.
      apply in_map_iff in Hp as (q & <- & Hq).
      apply filter_In in Hq as [_ Hq]. exact Hq.
    + apply roles_distinct, ALL_OCR_IDS_distinct.
    + intros _ Hall.
      apply (roles_complete
               (fun k => truthy (c_void_p_value (os_CopyIcon os k)))).
      intros k Hk.
      specialize (Hall (k - calls ApiCopyIcon log)%nat).
      replace (calls ApiCopyIcon log + (k - calls ApiCopyIcon log))%nat
        with k in Hall by lia.
      unfold c_void_p_value.
      destruct (Z.eqb_spec (os_CopyIcon os k) 0) as [E|E].
      * exfalso. apply Hall; [cbn [length ALL_OCR_IDS] in Hk; lia | exact E].
      * cbn [truthy]. unfold truthy_int.
        now destruct (Z.eqb_spec (os_CopyIcon os k) 0).
  - split; [constructor|]. split; [constructor|]. discriminate.
Qed.

(** On [no_reload_os] every copy is obtained: all roles are installed, in
    order, although the reload then fails. *)
Lemma force_reload_cursors_roles_witness :
  map snd (installed (emitted (force_reload_cursors no_reload_os) started))
  = ALL_OCR_IDS.
Proof.
  apply (force_reload_cursors_roles no_reload_os started); [reflexivity|].
  intros k _. cbn [no_reload_os os_CopyIcon]. lia.
Defined.

(** X5.  [force_reload_cursors] prints one line and reads the last error
    once when it returns [False]; it does neither when it returns [True]. *)
Theorem force_reload_cursors_diagnostic (os : OS) (log : list event) :
  calls ApiPrint (snd (force_reload_cursors os log)) =
    (calls ApiPrint log +
     if fst (force_reload_cursors os log) then 0 else 1)%nat /\
  calls ApiGetLastError (snd (force_reload_cursors os log)) =
    (calls ApiGetLastError log +
     if fst (force_reload_cursors os log) then 0 else 1)%nat.
Proof.
  rewrite force_reload_cursors_run.
  destruct (truthy (arrow_of os log)); cbn [fst snd].
  - destruct (truthy_int (reload_result os log)); split; count_calls; lia.
  - split; count_calls; lia.
Qed.

(** ** The loop *)

Lemma printed_app (p : message -> bool) (l1 l2 : list event) :
  printed p (l1 ++ l2) = (printed p l1 + printed p l2)%nat.
Proof. unfold printed. now rewrite filter_app, length_app. Qed.

Lemma printed_jolt_events (p : message -> bool) (os : OS) (arrow : option Z)
    (ids : list Z) : forall n, printed p (jolt_events os arrow n ids) = 0%nat.
Proof.
  induction ids as [|x ids IH]; intros n; [reflexivity|].
  cbn [jolt_events]. rewrite printed_app, IH. unfold install_events.
  now destruct (truthy (c_void_p_value (os_CopyIcon os n))).
Qed.

(** The lines printed by a repair are failure reports only. *)
Lemma force_reload_cursors_printed (p : message -> bool) (os : OS)
    (log : list event) :
  (forall err, p (MsgLoadCursorFailed err) = false) ->
  (forall err, p (MsgSystemParametersInfoFailed err) = false) ->
  printed p (snd (force_reload_cursors os log)) = printed p log.
Proof.
  intros H1 H2. rewrite force_reload_cursors_run.
  destruct (truthy (arrow_of os log)); cbn [snd].
  - rewrite !printed_app, printed_jolt_events.
    destruct (truthy_int (reload_result os log)); unfold printed; cbn;
      rewrite ?H2; cbn; lia.
  - rewrite printed_app. unfold printed. cbn. rewrite H1. cbn. lia.
Qed.

Lemma force_reload_cursors_sleeps (os : OS) (log : list event) :
  calls ApiSleep (snd (force_reload_cursors os log)) = calls ApiSleep log.
Proof.
  rewrite force_reload_cursors_run.
  destruct (truthy (arrow_of os log)); cbn [snd]; count_calls;
    try destruct (truthy_int (reload_result os log)); count_calls; lia.
Qed.

Lemma next_sample_ext (os1 os2 : OS) (l1 l2 : list event) :
  os_GetCursorInfo os1 (calls ApiGetCursorInfo l1) =
  os_GetCursorInfo os2 (calls ApiGetCursorInfo l2) ->
  next_sample os1 l1 = next_sample os2 l2.
Proof.
  intros H.
  unfold next_sample, get_cursor_handle, bind, GetCursorInfo, call, ret.
  rewrite H.
  destruct (negb (truthy_int (fst (os_GetCursorInfo os2
                                     (calls ApiGetCursorInfo l2)))));
    [reflexivity|].
  now destruct (negb (truthy_int (Z.land
    (flags (snd (os_GetCursorInfo os2 (calls ApiGetCursorInfo l2))))
    CURSOR_SHOWING))).
Qed.

Section MoreTicks.

Variable os : OS.
Variable st0 : LoopState.
Variable log0 : list event.

Local Abbreviation state := (state_at os st0 log0).
Local Abbreviation log := (log_at os st0 log0).
Local Abbreviation clock := (tick_now os st0 log0).
Local Abbreviation sample := (tick_sample os st0 log0).
Local Abbreviation fires := (tick_repairs os st0 log0).

(** The log of an iteration that starts no repair: lines 94-96, then at most
    one printed line. *)
Lemma quiet_tick_log k :
  fires k = 0%nat ->
  exists lines : list message,
    log (S k) =
    log k ++ [EvSleep poll_interval_sec; EvMonotonic; EvGetCursorInfo]
          ++ map EvPrint lines.
Proof.
  intros Hq. rewrite tick_repairs_eq in Hq.
  unfold log_at at 1. rewrite tick_run.
  destruct (loop_body_cases (clock k) (sample k) (state k))
    as [H|[[H1 H2]|[(H1&H2&H3)|[(H1&H2&H3&H4)|(H1&H2&H3&H4)]]]].
  - rewrite loop_body_skip by assumption. exists []. reflexivity.
  - rewrite loop_body_first by assumption. eexists [_]. cbn [snd map].
    now rewrite <- app_assoc.
  - rewrite loop_body_same by assumption. exists []. reflexivity.
  - exfalso. unfold reaches_reload in Hq. rewrite H1, H3, H4 in Hq.
    destruct (last_h (state k)); [discriminate | congruence].
  - rewrite loop_body_cooldown by assumption. eexists [_]. cbn [snd map].
    now rewrite <- app_assoc.
Qed.

Lemma calls_prints (a : api) (lines : list message) :
  a <> ApiPrint -> calls a (map EvPrint lines) = 0%nat.
Proof.
  intros Ha. induction lines as [|m lines IH]; [reflexivity|].
  cbn [map]. rewrite calls_cons, IH. cbn [api_of].
  now destruct a.
Qed.

Lemma log_at_sleeps k : calls ApiSleep (log k) = (calls ApiSleep log0 + k)%nat.
Proof.
  induction k as [|k IH]; [now rewrite Nat.add_0_r|].
  unfold log_at. rewrite tick_run. fold (log k).
  destruct (loop_body_cases (clock k) (sample k) (state k))
    as [H|[[H1 H2]|[(H1&H2&H3)|[(H1&H2&H3&H4)|(H1&H2&H3&H4)]]]].
  - rewrite loop_body_skip by assumption. cbn [snd]. count_calls. lia.
  - rewrite loop_body_first by assumption. cbn [snd]. count_calls. lia.
  - rewrite loop_body_same by assumption. cbn [snd]. count_calls. lia.
  - rewrite loop_body_reload by assumption. cbn [snd].
    rewrite force_reload_cursors_sleeps. count_calls. lia.
  - rewrite loop_body_cooldown by assumption. cbn [snd]. count_calls. lia.
Qed.

Lemma tick_sample_eq k (l : list event) :
  calls ApiGetCursorInfo l = (calls ApiGetCursorInfo log0 + k)%nat ->
  sample k = next_sample os l.
Proof.
  intros Hl. unfold tick_sample. symmetry. apply next_sample_calls.
  rewrite log_at_polls by now right. exact Hl.
Qed.

Lemma deadline_step k :
  cooldown_until (state (S k)) =
  if Nat.eqb (fires k) 1 then PrimFloat.add (clock k) cooldown_sec
  else cooldown_until (state k).
Proof.
  rewrite tick_repairs_eq, state_at_succ.
  destruct (reaches_reload _ _ _) eqn:E; cbn [Nat.eqb].
  - unfold reaches_reload in E. apply andb_prop in E as [-> _]. reflexivity.
  - now destruct (truthy (sample k)).
Qed.

Lemma last_h_step k :
  last_h (state (S k)) =
  if truthy (sample k) then sample k else last_h (state k).
Proof. rewrite state_at_succ. now destruct (truthy (sample k)). Qed.

End MoreTicks.

(** X6.  Whatever the system answers, [n] iterations sleep [n] times, read
    the clock [n] times and query the cursor [n] times; iteration [n]
    therefore gets the [n]-th clock and cursor answers that follow those
    consumed before the run. *)
Theorem polling_discipline (os : OS) (st0 : LoopState) (log0 : list event)
    (n : nat) :
  calls ApiSleep (log_at os st0 log0 n) = (calls ApiSleep log0 + n)%nat /\
  calls ApiMonotonic (log_at os st0 log0 n)
    = (calls ApiMonotonic log0 + n)%nat /\
  calls ApiGetCursorInfo (log_at os st0 log0 n)
    = (calls ApiGetCursorInfo log0 + n)%nat /\
  tick_now os st0 log0 n = os_monotonic os (calls ApiMonotonic log0 + n) /\
  (forall l : list event,
     calls ApiGetCursorInfo l = (calls ApiGetCursorInfo log0 + n)%nat ->
     tick_sample os st0 log0 n = next_sample os l).
Proof.
  split; [apply log_at_sleeps|].
  split; [apply log_at_polls; now left|].
  split; [apply log_at_polls; now right|].
  split; [apply tick_now_eq|].
  intros l Hl. now apply tick_sample_eq.
Qed.

(** X7.  While every valid sample is the handle already recorded (or the
    first one to be recorded), no iteration starts a repair and the run makes
    no call to [LoadCursorW], [CopyIcon], [SetSystemCursor] or
    [SystemParametersInfoW]: a steady cursor leaves the system cursors
    alone. *)
Theorem steady_cursor_is_left_alone (os : OS) (st0 : LoopState)
    (log0 : list event) (n : nat) (a : Z) :
  last_h st0 = None \/ last_h st0 = Some a ->
  (forall k, (k < n)%nat ->
     truthy (tick_sample os st0 log0 k) = false \/
     tick_sample os st0 log0 k = Some a) ->
  (forall k, (k < n)%nat -> tick_repairs os st0 log0 k = 0%nat) /\
  (forall c, c = ApiLoadCursorW \/ c = ApiCopyIcon \/
             c = ApiSetSystemCursor \/ c = ApiSystemParametersInfoW ->
             calls c (log_at os st0 log0 n) = calls c log0).
Proof.
  intros H0 Hsteady.
  assert (Hinv : forall k, (k <= n)%nat ->
            last_h (state_at os st0 log0 k) = None \/
            last_h (state_at os st0 log0 k) = Some a).
  { induction k as [|k IH]; intros Hk; [exact H0|].
    rewrite last_h_step.
    destruct (Hsteady k ltac:(lia)) as [Hf|Hs].
    - rewrite Hf. apply IH. lia.
    - destruct (truthy (tick_sample os st0 log0 k));
        [now right | apply IH; lia]. }
  assert (Hquiet : forall k, (k < n)%nat -> tick_repairs os st0 log0 k = 0%nat).
  { intros k Hk. rewrite tick_repairs_eq. unfold reaches_reload.
    destruct (Hsteady k Hk) as [Hf|Hs]; [now rewrite Hf|].
    destruct (Hinv k ltac:(lia)) as [Hl|Hl]; rewrite Hl;
      [now rewrite andb_false_r|].
    rewrite Hs. cbn [py_eq]. rewrite Z.eqb_refl. cbn [negb andb].
    now rewrite andb_false_r. }
  split; [exact Hquiet|].
  intros c Hc. clear Hinv Hsteady.
  induction n as [|m IH]; [reflexivity|].
  destruct (quiet_tick_log os st0 log0 m (Hquiet m ltac:(lia)))
    as [lines Hlog].
  rewrite Hlog, !calls_app, calls_prints, IH
    by (try (intros k Hk; apply Hquiet; lia);
        destruct Hc as [-> | [-> | [-> | ->]]]; discriminate).
  destruct Hc as [-> | [-> | [-> | ->]]]; count_calls; lia.
Qed.

(** The first three iterations of the demonstration run see a hidden
    cursor and then handle 10 twice. *)
Lemma steady_cursor_is_left_alone_witness :
  calls ApiSetSystemCursor (log_at demo_os initial_state started 3) = 0%nat.
Proof.
  refine (proj2 (steady_cursor_is_left_alone demo_os initial_state started
                   3 10 _ _) ApiSetSystemCursor _).
  - now left.
  - intros k Hk.
    assert (Hc : k = 0%nat \/ k = 1%nat \/ k = 2%nat) by lia.
    destruct Hc as [->|[->| ->]]; [left | right | right]; reflexivity.
  - right. right. now left.
Defined.

(** X8.  Two successive repairs are at least the cooldown apart: when
    iterations [i < j] both start a repair and none in between does, the
    time read by [j] is at or past the time read by [i] plus
    [cooldown_sec]. *)
Theorem repairs_are_spaced (os : OS) (st0 : LoopState) (log0 : list event)
    (i j : nat) :
  (i < j)%nat ->
  tick_repairs os st0 log0 i = 1%nat ->
  tick_repairs os st0 log0 j = 1%nat ->
  (forall k, (i < k < j)%nat -> tick_repairs os st0 log0 k = 0%nat) ->
  float_ge (tick_now os st0 log0 j)
           (PrimFloat.add (tick_now os st0 log0 i) cooldown_sec) = true.
Proof.
  intros Hij Hi Hj Hquiet.
  rewrite <- (repair_tick_sets_deadline os st0 log0 i Hi).
  rewrite <- (quiet_run_keeps_deadline os st0 log0 (S i) (j - S i))
    by (intros k Hk; apply Hquiet; lia).
  replace (S i + (j - S i))%nat with j by lia.
  rewrite tick_repairs_eq in Hj. unfold reaches_reload in Hj.
  destruct (truthy (tick_sample os st0 log0 j)); [|discriminate].
  destruct (last_h (state_at os st0 log0 j)); [|discriminate].
  destruct (float_ge _ _); [reflexivity|].
  now rewrite andb_false_r in Hj.
Qed.

(** The repairs of iterations 3 and 8 of the demonstration run. *)
Lemma repairs_are_spaced_witness :
  float_ge 0.20%float (PrimFloat.add 0.08%float cooldown_sec) = true.
Proof.
  apply (repairs_are_spaced demo_os initial_state started 3 8);
    [lia | reflexivity | reflexivity |].
  intros k Hk.
  assert (Hc : k = 4%nat \/ k = 5%nat \/ k = 6%nat \/ k = 7%nat) by lia.
  destruct Hc as [->|[->|[->| ->]]]; reflexivity.
Defined.

(** X9.  The deadline starts at [0.0]: as long as no repair has started,
    a detected change starts one exactly when the clock reads a value at
    or above zero. *)
Theorem first_change_repairs (os : OS) (log0 : list event) (j : nat)
    (v l : Z) :
  (forall k, (k < j)%nat -> tick_repairs os initial_state log0 k = 0%nat) ->
  last_h (state_at os initial_state log0 j) = Some l ->
  tick_sample os initial_state log0 j = Some v ->
  v <> 0 -> v <> l ->
  (tick_repairs os initial_state log0 j = 1%nat <->
   float_ge (tick_now os initial_state log0 j) 0%float = true).
Proof.
  intros Hquiet Hl Hs Hv Hvl.
  rewrite (change_tick_repairs os initial_state log0 j v l Hl Hs Hv Hvl).
  replace j with (0 + j)%nat at 2 by lia.
  rewrite quiet_run_keeps_deadline by (intros k Hk; apply Hquiet; lia).
  change (cooldown_until (state_at os initial_state log0 0)) with 0%float.
  destruct (float_ge _ _); split; congruence.
Qed.

(** Iteration 3 of the demonstration run is the first change. *)
Lemma first_change_repairs_witness :
  tick_repairs demo_os initial_state started 3 = 1%nat.
Proof.
  apply (first_change_repairs demo_os started 3 99 10);
    [ | reflexivity | reflexivity | discriminate | discriminate | reflexivity].
  intros k Hk.
  assert (Hc : k = 0%nat \/ k = 1%nat \/ k = 2%nat) by lia.
  destruct Hc as [->|[->| ->]]; reflexivity.
Defined.

(** X10.  The recorded handle is always the most recent valid sample (the
    one the run started with when there was none): neither the clock, nor
    the cooldown, nor the outcome of repairs has a say. *)
Theorem recorded_is_latest_sample (os : OS) (st0 : LoopState)
    (log0 : list event) (n : nat) :
  last_h (state_at os st0 log0 n) =
  latest_sample (tick_sample os st0 log0) n (last_h st0).
Proof.
  induction n as [|n IH]; [reflexivity|].
  rewrite last_h_step. cbn [latest_sample]. now rewrite IH.
Qed.

(** X11.  The deadline is always the time read by the most recent
    iteration that started a repair, plus [cooldown_sec] (the deadline the
    run started with when there was none). *)
Theorem deadline_is_latest_repair (os : OS) (st0 : LoopState)
    (log0 : list event) (n : nat) :
  cooldown_until (state_at os st0 log0 n) =
  latest_deadline (tick_repairs os st0 log0) (tick_now os st0 log0) n
                  (cooldown_until st0).
Proof.
  induction n as [|n IH]; [reflexivity|].
  rewrite deadline_step. cbn [latest_deadline]. now rewrite IH.
Qed.

(** X12.  The loop does not look at what repairs do: on two systems that
    give the same clock and cursor answers, every iteration reaches the same
    state and starts a repair on the one exactly when it does on the other,
    however [LoadCursorW], [CopyIcon], [SetSystemCursor],
    [SystemParametersInfoW] and the last error differ. *)
Theorem repair_outcome_is_ignored (os1 os2 : OS) (st0 : LoopState)
    (log0 : list event) (k : nat) :
  (forall n, os_monotonic os1 n = os_monotonic os2 n) ->
  (forall n, os_GetCursorInfo os1 n = os_GetCursorInfo os2 n) ->
  state_at os1 st0 log0 k = state_at os2 st0 log0 k /\
  tick_repairs os1 st0 log0 k = tick_repairs os2 st0 log0 k.
Proof.
  intros Hclock Hcursor.
  assert (Hnow : forall m, tick_now os1 st0 log0 m = tick_now os2 st0 log0 m).
  { intros m. now rewrite !tick_now_eq. }
  assert (Hsample : forall m,
            tick_sample os1 st0 log0 m = tick_sample os2 st0 log0 m).
  { intros m. unfold tick_sample. apply next_sample_ext.
    rewrite !log_at_polls by now right. apply Hcursor. }
  assert (Hstate : forall m, state_at os1 st0 log0 m = state_at os2 st0 log0 m).
  { induction m as [|m IH]; [reflexivity|].
    now rewrite !state_at_succ, Hnow, Hsample, IH. }
  split; [apply Hstate|].
  now rewrite !tick_repairs_eq, Hnow, Hsample, Hstate.
Qed.

(** [demo_os], where repairs succeed, and [broken_os], where the arrow
    cannot be loaded, share clock and cursor. *)
Lemma repair_outcome_is_ignored_witness :
  state_at demo_os initial_state started 13 =
  state_at broken_os initial_state started 13 /\
  tick_repairs demo_os initial_state started 13 =
  tick_repairs broken_os initial_state started 13.
Proof.
  apply (repair_outcome_is_ignored demo_os broken_os initial_state started 13);
    intros n; reflexivity.
Defined.

Section Lines.

Variable os : OS.
Variable st0 : LoopState.
Variable log0 : list event.

Local Abbreviation state := (state_at os st0 log0).
Local Abbreviation log := (log_at os st0 log0).
Local Abbreviation clock := (tick_now os st0 log0).
Local Abbreviation sample := (tick_sample os st0 log0).

(** The line printed by iteration [k], if any. *)
Lemma tick_printed (p : message -> bool) k :
  (forall err, p (MsgLoadCursorFailed err) = false) ->
  (forall err, p (MsgSystemParametersInfoFailed err) = false) ->
  printed p (log (S k)) =
  (printed p (log k) +
   if truthy (sample k) then
     match last_h (state k) with
     | None => if p (MsgInitial (sample k)) then 1 else 0
     | Some _ =>
         if py_eq (sample k) (last_h (state k)) then 0
         else if float_ge (clock k) (cooldown_until (state k))
              then if p (MsgSwitchReload (last_h (state k)) (sample k))
                   then 1 else 0
              else if p (MsgSwitchCooldown (last_h (state k)) (sample k))
                   then 1 else 0
     end
   else 0)%nat.
Proof.
  intros Hp1 Hp2. unfold log_at at 1. rewrite tick_run. fold (log k).
  destruct (loop_body_cases (clock k) (sample k) (state k))
    as [H|[[H1 H2]|[(H1&H2&H3)|[(H1&H2&H3&H4)|(H1&H2&H3&H4)]]]].
  - rewrite loop_body_skip, H by assumption. cbn [snd].
    rewrite printed_app. unfold printed at 2. cbn. lia.
  - rewrite loop_body_first, H1, H2 by assumption. cbn [snd].
    rewrite !printed_app. unfold printed at 2 3. cbn.
    destruct (p (MsgInitial (sample k))); cbn; lia.
  - rewrite loop_body_same, H1, H3 by assumption. cbn [snd].
    destruct (last_h (state k)); [|congruence].
    rewrite printed_app. unfold printed at 2. cbn. lia.
  - rewrite loop_body_reload, H1, H3, H4 by assumption. cbn [snd].
    rewrite force_reload_cursors_printed by assumption.
    destruct (last_h (state k)) eqn:E; [|congruence].
    rewrite !printed_app. unfold printed at 2 3. cbn.
    destruct (p (MsgSwitchReload (Some z) (sample k))); cbn; lia.
  - rewrite loop_body_cooldown, H1, H3, H4 by assumption. cbn [snd].
    destruct (last_h (state k)) eqn:E; [|congruence].
    rewrite !printed_app. unfold printed at 2 3. cbn.
    destruct (p (MsgSwitchCooldown (Some z) (sample k))); cbn; lia.
Qed.

End Lines.

(** X13.  In a run of [main] the line reporting the initial handle is
    printed once when a handle has been recorded, and not at all before:
    it is never printed twice. *)
Theorem initial_line_once (os : OS) (n : nat) (log : list event) :
  printed is_initial (snd (main os n log)) =
  (printed is_initial log +
   match last_h (fst (main os n log)) with Some _ => 1 | None => 0 end)%nat.
Proof.
  rewrite main_run.
  change (snd (iterate os n initial_state (log ++ [EvPrint MsgStarted])))
    with (log_at os initial_state (log ++ [EvPrint MsgStarted]) n).
  change (fst (iterate os n initial_state (log ++ [EvPrint MsgStarted])))
    with (state_at os initial_state (log ++ [EvPrint MsgStarted]) n).
  induction n as [|n IH].
  - unfold log_at, state_at. cbn [iterate ret fst snd initial_state last_h].
    rewrite printed_app. unfold printed at 2. cbn. lia.
  - rewrite tick_printed, IH, last_h_step by reflexivity.
    destruct (tick_sample os initial_state _ n) as [v|] eqn:Hs;
      cbn [truthy]; [|lia].
    destruct (truthy_int v); [|lia].
    destruct (last_h (state_at os initial_state _ n)); cbn [is_initial];
      [|lia].
    destruct (py_eq _ _); [lia|]. destruct (float_ge _ _); lia.
Qed.

(** X14.  Every repair is announced: over any run the number of lines
    "reloading the scheme" printed equals the number of repairs started. *)
Theorem repairs_are_announced (os : OS) (st0 : LoopState) (log0 : list event)
    (n : nat) :
  (printed is_reload (log_at os st0 log0 n) + repairs log0)%nat =
  (printed is_reload log0 + repairs (log_at os st0 log0 n))%nat.
Proof.
  induction n as [|n IH]; [reflexivity|].
  pose proof (tick_repairs_eq os st0 log0 n) as Hf.
  unfold tick_repairs in Hf.
  assert (Hgrow : (repairs (log_at os st0 log0 n)
                   <= repairs (log_at os st0 log0 (S n)))%nat).
  { unfold log_at at 2. rewrite tick_run, loop_body_repairs.
    unfold repairs. count_calls. fold (log_at os st0 log0 n). lia. }
  rewrite tick_printed by reflexivity.
  unfold reaches_reload in Hf.
  destruct (truthy (tick_sample os st0 log0 n)); cbn [andb] in Hf; [|lia].
  destruct (last_h (state_at os st0 log0 n)); cbn [is_reload]; [|lia].
  destruct (py_eq _ _); cbn [negb andb] in Hf; [lia|].
  destruct (float_ge _ _); cbn [is_reload]; lia.
Qed.

(** X15.  An iteration prints one of its own lines (initial handle,
    reload, cooldown) exactly when its sample is valid and differs from what
    is recorded, nothing recorded included; otherwise it prints none. *)
Theorem line_per_change (os : OS) (st0 : LoopState) (log0 : list event)
    (k : nat) :
  printed is_loop_line (log_at os st0 log0 (S k)) =
  (printed is_loop_line (log_at os st0 log0 k) +
   if truthy (tick_sample os st0 log0 k) &&
      negb (py_eq (tick_sample os st0 log0 k)
                  (last_h (state_at os st0 log0 k)))
   then 1 else 0)%nat.
Proof.
  rewrite tick_printed by reflexivity.
  destruct (tick_sample os st0 log0 k) as [v|]; cbn [truthy andb]; [|lia].
  destruct (truthy_int v); cbn [andb]; [|lia].
  destruct (last_h (state_at os st0 log0 k)); cbn [py_eq negb]; [|reflexivity].
  destruct (v =? z); cbn [negb]; [lia|].
  now destruct (float_ge _ _).
Qed.
